(** * Customer REST API service: [service/routes.py]

    A shallow embedding of the Flask handlers of the customer service and
    the theorems that settle the properties stated about them.

    The handlers run in a small state-and-exception monad over the
    customer table.  Flask's [request] proxy is an explicit argument, and
    [abort] and [raise] are the two ways a handler leaves early. *)

From Stdlib Require Import ZArith Ascii String List DecimalString DecimalZ.
From stdpp Require Import base option list strings gmap fin_maps.

Local Open Scope Z_scope.
Set Warnings "-register-all".

(* ===================================================================== *)
(** ** JSON documents *)
(* ===================================================================== *)

(** What [request.get_json()] yields and what [jsonify] takes: Python
    values built from [None], [bool], [int], [str], [list] and [dict].  A
    [dict] is kept as its items in insertion order (keys distinct). *)
Inductive json : Type :=
| JNull
| JBool (b : bool)
| JNum (z : Z)
| JStr (s : string)
| JArr (items : list json)
| JObj (items : list (string * json)).

(** [d.get(key)] on the items of a dict. *)
Fixpoint dict_get (key : string) (items : list (string * json)) : option json :=
  match items with
  | [] => None
  | (k, v) :: rest => if String.eqb k key then Some v else dict_get key rest
  end.

(** [doc[key]] read off a JSON document; [None] when the document is not a
    dict or lacks the key. *)
Definition json_field (key : string) (doc : json) : option json :=
  match doc with
  | JObj items => dict_get key items
  | _ => None
  end.

(* ===================================================================== *)
(** ** Integers and text *)
(* ===================================================================== *)

(** Python's [str(n)] for an [int], which is also how an f-string and
    [url_for] render one. *)
Definition str (n : Z) : string := NilZero.string_of_int (Z.to_int n).

Definition is_digit (c : ascii) : bool :=
  let n := nat_of_ascii c in (48 <=? n)%nat && (n <=? 57)%nat.

(** The characters [int()] skips at both ends of an ASCII argument: tab,
    line feed, vertical tab, form feed, carriage return and the space
    (the separators 0x1c-0x1f are not among them). *)
Definition is_space (c : ascii) : bool :=
  let n := nat_of_ascii c in
  ((9 <=? n)%nat && (n <=? 13)%nat) || (n =? 32)%nat.

Fixpoint lstrip (s : string) : string :=
  match s with
  | String c rest => if is_space c then lstrip rest else s
  | EmptyString => EmptyString
  end.

Fixpoint rstrip (s : string) : string :=
  match s with
  | EmptyString => EmptyString
  | String c rest =>
      match rstrip rest with
      | EmptyString => if is_space c then EmptyString else String c EmptyString
      | kept => String c kept
      end
  end.

(** The digits of a literal whose digit groups are joined by single
    underscores ([1_000]); [None] when a character is neither, or an
    underscore is not between two digits.  [prev] tells whether the
    character just read was a digit. *)
Fixpoint digit_groups (prev : bool) (s : string) : option string :=
  match s with
  | EmptyString => if prev then Some EmptyString else None
  | String c rest =>
      if is_digit c then String c <$> digit_groups true rest
      else if Ascii.eqb c "_" then
        if prev then
          match rest with
          | String d _ => if is_digit d then digit_groups false rest else None
          | EmptyString => None
          end
        else None
      else None
  end.

Definition unsigned_literal (s : string) : option Z :=
  digits ← digit_groups false s;
  Z.of_uint <$> NilEmpty.uint_of_string digits.

(** Python's [int(s)], base ten, on the strings on which it is plain
    text processing: blanks around the literal are dropped, one sign may
    lead it.  [None] stands for [ValueError].

    This is [int] exactly on ASCII strings of at most 4300 characters
    ([plain_segment] below).  Beyond that [int] is not modelled: on a
    non-ASCII string it consults the Unicode tables (it reads the
    decimal digits and blanks of other scripts), and it refuses a
    literal of more digits than the interpreter's limit, 4300 by
    default.  Statements that rest on the value read here are made for
    plain segments only. *)
Definition py_int (s : string) : option Z :=
  match rstrip (lstrip s) with
  | String sign rest =>
      if Ascii.eqb sign "-" then Z.opp <$> unsigned_literal rest
      else if Ascii.eqb sign "+" then unsigned_literal rest
      else unsigned_literal (String sign rest)
  | EmptyString => None
  end.

(** ASCII lower-casing, for header names, which compare without case. *)
Definition lower (c : ascii) : ascii :=
  let n := nat_of_ascii c in
  if (65 <=? n)%nat && (n <=? 90)%nat then ascii_of_nat (n + 32) else c.

Fixpoint lower_string (s : string) : string :=
  match s with
  | EmptyString => EmptyString
  | String c rest => String (lower c) (lower_string rest)
  end.

(** [s.removeprefix(p)] when [s] starts with [p], else [None]. *)
Fixpoint strip_prefix (p s : string) : option string :=
  match p, s with
  | EmptyString, _ => Some s
  | String a p', String b s' => if Ascii.eqb a b then strip_prefix p' s' else None
  | String _ _, EmptyString => None
  end.

Fixpoint all_chars (f : ascii -> bool) (s : string) : bool :=
  match s with
  | EmptyString => true
  | String c rest => f c && all_chars f rest
  end.

(* ===================================================================== *)
(** ** Exceptions and the handler monad *)
(* ===================================================================== *)

(** The exceptions that leave a handler. *)
Inductive Exc : Type :=
| HTTPException (code : Z) (description : string)   (* flask.abort *)
| DataValidationError (message : string)            (* service.models *)
| BuildError.                                       (* url_for without a value *)

Inductive Outcome (A : Type) : Type :=
| Return (a : A)
| Raise (e : Exc).
Arguments Return {A} a.
Arguments Raise {A} e.

Module status.
Definition HTTP_200_OK : Z := 200.
Definition HTTP_201_CREATED : Z := 201.
Definition HTTP_204_NO_CONTENT : Z := 204.
Definition HTTP_400_BAD_REQUEST : Z := 400.
Definition HTTP_404_NOT_FOUND : Z := 404.
Definition HTTP_415_UNSUPPORTED_MEDIA_TYPE : Z := 415.
End status.

(* ===================================================================== *)
(** ** The customer model, [service/models.py] *)
(* ===================================================================== *)

Module models.

(** Modelled from the spec: the [Customer] class of [service/models.py],
    which is not part of the sources at hand.  A customer has an [id]
    (unique, assigned by the store; [None] until then) and the fields
    [name], [email], [phone_number] and [address]. *)
Record Customer : Type := {
  id : option Z;
  name : string;
  email : string;
  phone_number : string;
  address : string;
}.

(** Modelled from the spec: one row of the customer table, the columns
    other than the primary key. *)
Record Columns : Type := {
  col_name : string;
  col_email : string;
  col_phone_number : string;
  col_address : string;
}.

(** Modelled from the spec: the relational store behind [Customer], a
    table keyed by the primary key [id] and the next key it hands out. *)
Record Store : Type := {
  table : gmap Z Columns;
  next_id : Z;
}.

Definition empty_store : Store := {| table := ∅; next_id := 1 |}.

Definition columns_of (c : Customer) : Columns :=
  {| col_name := name c; col_email := email c;
     col_phone_number := phone_number c; col_address := address c |}.

Definition customer_of (k : Z) (r : Columns) : Customer :=
  {| id := Some k; name := col_name r; email := col_email r;
     phone_number := col_phone_number r; address := col_address r |}.

(** Modelled from the spec: [Customer()], a customer not yet filled in
    and not yet stored. *)
Definition new_customer : Customer :=
  {| id := None; name := ""; email := ""; phone_number := ""; address := "" |}.

(** Modelled from the spec: [Customer.find(id)], the stored customer
    with that id, or [None]. *)
Definition find (k : Z) (st : Store) : option Customer :=
  customer_of k <$> table st !! k.

(** Modelled from the spec: [Customer.all()], every stored customer. *)
Definition all (st : Store) : list Customer :=
  (fun kr : Z * Columns => customer_of kr.1 kr.2) <$> map_to_list (table st).

(** Modelled from the spec: the four [find_by_*] queries, the stored
    customers whose field equals the value asked for. *)
Definition find_by (field : Customer -> string) (value : string) (st : Store)
  : list Customer :=
  List.filter (fun c => String.eqb (field c) value) (all st).

Definition find_by_name := find_by name.
Definition find_by_email := find_by email.
Definition find_by_phone_number := find_by phone_number.
Definition find_by_address := find_by address.

(** Modelled from the spec: [customer.serialize()], the customer as a
    dict of its five fields. *)
Definition serialize (c : Customer) : json :=
  JObj [ ("id", match id c with Some k => JNum k | None => JNull end);
         ("name", JStr (name c));
         ("email", JStr (email c));
         ("phone_number", JStr (phone_number c));
         ("address", JStr (address c)) ]%string.

(** Modelled from the spec: [customer.deserialize(data)].  It validates
    the required fields: [data] must be a dict that gives [name],
    [email], [phone_number] and [address] as strings; anything else is
    malformed and raises [DataValidationError].  On success the four
    fields of the customer are replaced; its [id] is not touched. *)
Definition deserialize (self : Customer) (data : json) : Outcome Customer :=
  match json_field "name" data, json_field "email" data,
        json_field "phone_number" data, json_field "address" data with
  | Some (JStr n), Some (JStr e), Some (JStr p), Some (JStr a) =>
      Return {| id := id self; name := n; email := e;
                phone_number := p; address := a |}
  | _, _, _, _ => Raise (DataValidationError "Invalid Customer: bad or missing data")
  end.

(** Modelled from the spec: [customer.create()], which stores the
    customer under a key the store assigns and sets its [id] to it. *)
Definition create (self : Customer) (st : Store) : Customer * Store :=
  let k := next_id st in
  ({| id := Some k; name := name self; email := email self;
      phone_number := phone_number self; address := address self |},
   {| table := <[k := columns_of self]> (table st); next_id := k + 1 |}).

(** Modelled from the spec: [customer.update()], which writes the fields
    of the customer to the row of its [id].  (A customer that was never
    stored has no row to write; the handlers only update what [find]
    returned.) *)
Definition update (self : Customer) (st : Store) : Store :=
  match id self with
  | Some k => {| table := <[k := columns_of self]> (table st); next_id := next_id st |}
  | None => st
  end.

(** Modelled from the spec: [customer.delete()], which removes the row
    of the customer. *)
Definition delete (self : Customer) (st : Store) : Store :=
  match id self with
  | Some k => {| table := base.delete k (table st); next_id := next_id st |}
  | None => st
  end.

(** Keys are handed out from 1 in increasing order: every stored key is
    positive and below [next_id]. *)
Definition consistent (st : Store) : Prop :=
  0 < next_id st /\ forall k, is_Some (table st !! k) -> 0 < k < next_id st.

End models.

(* ===================================================================== *)
(** ** Requests, responses and the handler monad *)
(* ===================================================================== *)

(** Flask's [request], as far as the handlers read it.  Header names are
    matched without regard to case, [args] is the query string in order,
    [data] the JSON document of the body ([None] when the body is not
    JSON), and [host_url] the scheme and host the request was sent to,
    from which [url_for(..., _external=True)] builds its URLs. *)
Record Request : Type := {
  headers : list (string * string);
  args : list (string * string);
  data : option json;
  host_url : string;
}.

(** What a handler returns: the body given to [jsonify], the status code
    and the extra response headers. *)
Record Response : Type := {
  resp_body : json;
  resp_status : Z;
  resp_headers : list (string * string);
}.

(** [request.headers.get(key)]: the first header of that name. *)
Fixpoint headers_get (key : string) (hs : list (string * string)) : option string :=
  match hs with
  | [] => None
  | (k, v) :: rest =>
      if String.eqb (lower_string k) (lower_string key) then Some v
      else headers_get key rest
  end.

(** [request.args.get(key)]: the first value given for the key. *)
Fixpoint args_get (key : string) (qs : list (string * string)) : option string :=
  match qs with
  | [] => None
  | (k, v) :: rest => if String.eqb k key then Some v else args_get key rest
  end.

(** Python's truth test on a [str] or [None]: the value when it is a
    non-empty string. *)
Definition truthy (v : option string) : option string :=
  match v with
  | Some (String c rest) => Some (String c rest)
  | _ => None
  end.

(** A handler step: it reads and may change the store, and either returns
    or raises. *)
Definition M (A : Type) : Type := models.Store -> Outcome A * models.Store.

Definition ret {A} (a : A) : M A := fun st => (Return a, st).

Definition bind {A B} (m : M A) (k : A -> M B) : M B :=
  fun st =>
    match m st with
    | (Return a, st') => k a st'
    | (Raise e, st') => (Raise e, st')
    end.

Definition raise {A} (e : Exc) : M A := fun st => (Raise e, st).

(** [abort(code, description)] *)
Definition abort {A} (code : Z) (description : string) : M A :=
  raise (HTTPException code description).

(** A computation that cannot touch the store. *)
Definition lift {A} (o : Outcome A) : M A := fun st => (o, st).

(** A query: reads the store. *)
Definition query {A} (q : models.Store -> A) : M A := fun st => (Return (q st), st).

(** A command: changes the store. *)
Definition command (f : models.Store -> models.Store) : M unit :=
  fun st => (Return tt, f st).

Declare Scope handler_scope.
Delimit Scope handler_scope with handler.
Notation "x <- m ;; k" := (bind m (fun x => k))
  (at level 20, m at level 99, k at level 200, only parsing) : handler_scope.
Notation "m ;; k" := (bind m (fun _ => k))
  (at level 100, k at level 200, right associativity, only parsing) : handler_scope.
Local Open Scope handler_scope.

(** [request.get_json()] once the content type is JSON: the parsed body;
    a body that does not parse is refused with 400. *)
Definition get_json (request : Request) : M json :=
  match data request with
  | Some doc => ret doc
  | None => abort status.HTTP_400_BAD_REQUEST "Failed to decode JSON object"
  end.

(** [url_for(endpoint, customer_id=..., _external=True)] over the routes
    of this service. *)
Definition url_for (endpoint : string) (customer_id : option Z) (request : Request)
  : M string :=
  if String.eqb endpoint "list_customers" || String.eqb endpoint "create_customers"
  then ret (host_url request +:+ "/customers")
  else if String.eqb endpoint "get_customers" || String.eqb endpoint "update_customers"
  then match customer_id with
       | Some k => ret (host_url request +:+ "/customers/" +:+ str k)
       | None => raise BuildError
       end
  else raise BuildError.

(* ===================================================================== *)
(** ** The handlers, [service/routes.py] *)
(* ===================================================================== *)

Module routes.
Import models.

Definition not_found_message (customer_id : Z) : string :=
  "Customer with id '" +:+ str customer_id +:+ "' was not found.".

(** Checks that the media type is correct. *)
Definition check_content_type (content_type : string) (request : Request) : M unit :=
  match headers_get "Content-Type" (headers request) with
  | None =>
      (* "Content-Type" not in request.headers *)
      abort status.HTTP_415_UNSUPPORTED_MEDIA_TYPE
            ("Content-Type must be " +:+ content_type)
  | Some value =>
      if String.eqb value content_type then ret tt
      else abort status.HTTP_415_UNSUPPORTED_MEDIA_TYPE
                 ("Content-Type must be " +:+ content_type)
  end.

(** [GET /]: root URL response. *)
Definition index (request : Request) : M Response :=
  list_url <- url_for "list_customers" None request;;
  get_url <- url_for "get_customers" (Some 1) request;;
  create_url <- url_for "create_customers" None request;;
  update_url <- url_for "update_customers" (Some 1) request;;
  ret {| resp_body :=
           JObj [ ("name", JStr "Customer REST API Service");
                  ("version", JStr "1.0");
                  ("description",
                    JStr ("This is a RESTful service for managing customers. You can list, view, "
                          +:+ "create, update, and delete customer information."));
                  ("paths",
                    JObj [ ("list_customers",
                             JObj [("method", JStr "GET"); ("url", JStr list_url)]);
                           ("get_customer",
                             JObj [("method", JStr "GET"); ("url", JStr get_url)]);
                           ("create_customer",
                             JObj [("method", JStr "POST"); ("url", JStr create_url)]);
                           ("update_customer",
                             JObj [("method", JStr "PUT"); ("url", JStr update_url)]) ]) ];
         resp_status := status.HTTP_200_OK;
         resp_headers := [] |}.

(** [POST /customers]: create a customer from the posted body. *)
Definition create_customers (request : Request) : M Response :=
  check_content_type "application/json" request;;
  let customer := new_customer in
  (* Get the data from the request and deserialize it *)
  data <- get_json request;;
  customer <- lift (deserialize customer data);;
  (* Save the new Customer to the database *)
  customer <- (fun st => let (c, st') := create customer st in (Return c, st'));;
  (* Return the location of the new Customer *)
  location_url <- url_for "get_customers" (id customer) request;;
  ret {| resp_body := serialize customer;
         resp_status := status.HTTP_201_CREATED;
         resp_headers := [("Location", location_url)] |}.

(** [GET /customers]: all of the customers, or those a filter selects. *)
Definition list_customers (request : Request) : M Response :=
  let name := args_get "name" (args request) in
  let email := args_get "email" (args request) in
  let phone_number := args_get "phone_number" (args request) in
  let address := args_get "address" (args request) in
  customers <-
    match truthy name with
    | Some name => query (find_by_name name)
    | None =>
    match truthy email with
    | Some email => query (find_by_email email)
    | None =>
    match truthy phone_number with
    | Some phone_number => query (find_by_phone_number phone_number)
    | None =>
    match truthy address with
    | Some address => query (find_by_address address)
    | None => query all
    end end end end;;
  let results := List.map serialize customers in
  ret {| resp_body := JArr results;
         resp_status := status.HTTP_200_OK;
         resp_headers := [] |}.

(** [GET /customers/<int:customer_id>]: retrieve a single customer. *)
Definition get_customers (customer_id : Z) (request : Request) : M Response :=
  (* Attempt to find the Customer and abort if not found *)
  customer <- query (find customer_id);;
  match customer with
  | None => abort status.HTTP_404_NOT_FOUND (not_found_message customer_id)
  | Some customer =>
      ret {| resp_body := serialize customer;
             resp_status := status.HTTP_200_OK;
             resp_headers := [] |}
  end.

(** [PUT /customers/<int:customer_id>]: update a customer from the
    posted body. *)
Definition update_customers (customer_id : Z) (request : Request) : M Response :=
  check_content_type "application/json" request;;
  customer <- query (find customer_id);;
  match customer with
  | None => abort status.HTTP_404_NOT_FOUND (not_found_message customer_id)
  | Some customer =>
      data <- get_json request;;
      customer <- lift (deserialize customer data);;
      command (update customer);;
      ret {| resp_body := serialize customer;
             resp_status := status.HTTP_200_OK;
             resp_headers := [] |}
  end.

(** [DELETE /customers/<customer_id>]: delete the customer whose id is
    given in the path. *)
Definition delete_customer (customer_id : string) (request : Request) : M Response :=
  match py_int customer_id with
  | None => raise (DataValidationError "Bad ID format")
  | Some customer_id =>
      customer <- query (find customer_id);;
      match customer with
      | Some customer =>
          command (delete customer);;
          ret {| resp_body := JObj [];
                 resp_status := status.HTTP_204_NO_CONTENT;
                 resp_headers := [] |}
      | None => abort status.HTTP_404_NOT_FOUND (not_found_message customer_id)
      end
  end.

(** *** The URL map *)

Inductive Method : Type := GET | POST | PUT | DELETE.

(** The [<int:customer_id>] converter: one or more digits. *)
Definition int_converter (segment : string) : option Z :=
  Z.of_uint <$> NilZero.uint_of_string segment.

(** The default converter of [<customer_id>]: a non-empty segment
    without a slash. *)
Definition string_converter (segment : string) : option string :=
  match segment with
  | EmptyString => None
  | _ => if all_chars (fun c => negb (Ascii.eqb c "/")) segment
         then Some segment else None
  end.

(** The view function the [@app.route] decorators of this file bind to
    a method and a path; [None] when none of them matches. *)
Definition route (method : Method) (path : string) : option (Request -> M Response) :=
  if String.eqb path "/" then
    match method with GET => Some index | _ => None end
  else if String.eqb path "/customers" then
    match method with
    | GET => Some list_customers
    | POST => Some create_customers
    | _ => None
    end
  else
    segment ← strip_prefix "/customers/" path;
    match method with
    | GET => get_customers <$> int_converter segment
    | PUT => update_customers <$> int_converter segment
    | DELETE => delete_customer <$> string_converter segment
    | POST => None
    end.

End routes.

(* ===================================================================== *)
(** * Properties *)
(* ===================================================================== *)

Import models routes.

(** How the [Content-Type] header of a request stands to a media type. *)
Definition content_type_is (ct : string) (request : Request) : Prop :=
  headers_get "Content-Type" (headers request) = Some ct.

Definition content_type_missing (request : Request) : Prop :=
  headers_get "Content-Type" (headers request) = None.

Definition content_type_differs (ct : string) (request : Request) : Prop :=
  exists value, headers_get "Content-Type" (headers request) = Some value /\ value <> ct.

(** A handler aborted with the given status code. *)
Definition aborted_with {A} (code : Z) (o : Outcome A) : Prop :=
  exists description, o = Raise (HTTPException code description).

(** ** Query filters, in the words of the interface *)

(** The filter [key] is given: the query string carries it with a value
    that is not empty. *)
Definition given (key : string) (request : Request) (value : string) : Prop :=
  args_get key (args request) = Some value /\ value <> ""%string.

(** The filter [key] is not given: the query string lacks it, or carries
    it with an empty value. *)
Definition not_given (key : string) (request : Request) : Prop :=
  args_get key (args request) = None \/ args_get key (args request) = Some ""%string.

(** The request with every occurrence of [key] taken out of its query
    string. *)
Definition without_arg (key : string) (request : Request) : Request :=
  {| headers := headers request;
     args := List.filter (fun kv : string * string => negb (String.eqb kv.1 key))
                         (args request);
     data := data request;
     host_url := host_url request |}.

(** The response that lists [customers]. *)
Definition listing (customers : list Customer) : Response :=
  {| resp_body := JArr (List.map serialize customers);
     resp_status := 200;
     resp_headers := [] |}.

(** The response that shows one customer with the given status. *)
Definition entity (code : Z) (hs : list (string * string)) (c : Customer) : Response :=
  {| resp_body := serialize c; resp_status := code; resp_headers := hs |}.

(** [c] is one of the customers in the store. *)
Definition stored (c : Customer) (st : Store) : Prop :=
  exists k, find k st = Some c.

(** ** Path segments, in the words of the interface *)

(** The segment is plain: every character is ASCII and there are at most
    4300 of them, so that [int()] reads it without Unicode tables and
    within its default limit on the number of digits. *)
Definition plain_segment (s : string) : Prop :=
  all_chars (fun c => (nat_of_ascii c <? 128)%nat) s = true /\
  (String.length s <= 4300)%nat.


(** ** Request bodies, in the words of the interface *)

(** The document gives the four fields of a customer, as strings. *)
Definition well_formed (doc : json) (n e p a : string) : Prop :=
  json_field "name" doc = Some (JStr n) /\
  json_field "email" doc = Some (JStr e) /\
  json_field "phone_number" doc = Some (JStr p) /\
  json_field "address" doc = Some (JStr a).

(** The body of the request fails deserialization: it is not JSON, or
    [deserialize] raises on it. *)
Definition body_fails (request : Request) : Prop :=
  forall doc, data request = Some doc ->
    exists e, deserialize new_customer doc = Raise e.

(** The reading of "PUT on an existing id answers 200" that puts no
    condition on the body. *)
Definition put_found_always_200 : Prop :=
  forall (k : Z) (request : Request) (st : Store) (c : Customer),
    content_type_is "application/json" request ->
    find k st = Some c ->
    exists resp,
      (update_customers k request st).1 = Return resp /\ resp_status resp = 200.

(** The steps of [create_customers] that come before [customer.create()]:
    the content type check, reading the body and deserializing it. *)
Definition create_validation (request : Request) : M Customer :=
  (check_content_type "application/json" request;;
   data <- get_json request;;
   lift (deserialize new_customer data))%handler.

(** The steps of [update_customers] that come before [customer.update()]:
    the content type check, the lookup, reading the body and
    deserializing it. *)
Definition update_validation (customer_id : Z) (request : Request) : M Customer :=
  (check_content_type "application/json" request;;
   customer <- query (find customer_id);;
   match customer with
   | None => abort status.HTTP_404_NOT_FOUND (not_found_message customer_id)
   | Some customer =>
       data <- get_json request;;
       lift (deserialize customer data)
   end)%handler.

(** ** Outcomes, in the words of the interface *)

(** A handler returned a response with the given status code. *)
Definition returned_with (code : Z) (o : Outcome Response) : Prop :=
  exists resp, o = Return resp /\ resp_status resp = code.

(** A handler raised the validation error of the model. *)
Definition raised_validation {A} (o : Outcome A) : Prop :=
  exists message, o = Raise (DataValidationError message).

(** The elements of a response whose body is a JSON list. *)
Definition items (resp : Response) : list json :=
  match resp_body resp with
  | JArr elements => elements
  | _ => []
  end.

(** The path of one customer, for a segment that spells its id. *)
Definition item_path (segment : string) : string := "/customers/" +:+ segment.

(** The index response lists, under [label], the given method and URL. *)
Definition advertised (resp : Response) (label method url : string) : Prop :=
  exists paths entry,
    json_field "paths" (resp_body resp) = Some paths /\
    json_field label paths = Some entry /\
    json_field "method" entry = Some (JStr method) /\
    json_field "url" entry = Some (JStr url).

(** The method a method name stands for. *)
Definition method_of_string (name : string) : option Method :=
  if String.eqb name "GET" then Some GET
  else if String.eqb name "POST" then Some POST
  else if String.eqb name "PUT" then Some PUT
  else if String.eqb name "DELETE" then Some DELETE
  else None.

(** ** Sample data *)

Module sample.
Local Open Scope string_scope.

Definition alice : json :=
  JObj [("name", JStr "Alice"); ("email", JStr "alice@example.com");
        ("phone_number", JStr "555-0100"); ("address", JStr "1 Main St")].

Definition bob : json :=
  JObj [("name", JStr "Bob"); ("email", JStr "bob@example.com");
        ("phone_number", JStr "555-0101"); ("address", JStr "2 Main St")].

Definition json_request (doc : json) : Request :=
  {| headers := [("Content-Type", "application/json")]; args := [];
     data := Some doc; host_url := "http://localhost:8080" |}.

Definition plain_request (query : list (string * string)) : Request :=
  {| headers := []; args := query; data := None;
     host_url := "http://localhost:8080" |}.

(** The store after Alice, then Bob, were posted to an empty service. *)
Definition one : Store := (create_customers (json_request alice) empty_store).2.
Definition two : Store := (create_customers (json_request bob) one).2.
End sample.

(** ** Proof support *)

#[global] Arguments deserialize : simpl never.
#[global] Arguments serialize : simpl never.
#[global] Arguments find : simpl never.
#[global] Arguments models.update : simpl never.
#[global] Arguments models.delete : simpl never.
#[global] Arguments create : simpl never.
#[global] Arguments str : simpl never.
#[global] Arguments not_found_message : simpl never.
#[global] Arguments py_int : simpl never.

(** Unfolds a handler down to the calls it makes on the model. *)
Ltac run_handler :=
  unfold create_customers, update_customers, get_customers, delete_customer,
    list_customers, index, get_json, url_for, query, command, lift, abort,
    raise, ret, bind in *; simpl in *.

(** ** The monad *)

Lemma bind_Return {A B} (m : M A) (k : A -> M B) st a st' :
  m st = (Return a, st') -> bind m k st = k a st'.
Proof. unfold bind. by intros ->. Qed.

Lemma bind_Raise {A B} (m : M A) (k : A -> M B) st e st' :
  m st = (Raise e, st') -> bind m k st = (Raise e, st').
Proof. unfold bind. by intros ->. Qed.

(** ** Content type *)

Lemma content_type_cases ct request :
  content_type_is ct request \/ content_type_missing request \/
  content_type_differs ct request.
Proof.
  unfold content_type_is, content_type_missing, content_type_differs.
  destruct (headers_get _ _) as [v|]; [|by right; left].
  destruct (String.eqb_spec v ct) as [->|Hne]; [by left|].
  right; right. by exists v.
Qed.

Lemma check_content_type_ok ct request st :
  content_type_is ct request -> check_content_type ct request st = (Return tt, st).
Proof.
  unfold content_type_is, check_content_type. intros ->.
  by rewrite String.eqb_refl.
Qed.

Lemma check_content_type_bad ct request st :
  content_type_missing request \/ content_type_differs ct request ->
  check_content_type ct request st =
    (Raise (HTTPException 415 ("Content-Type must be " +:+ ct)), st).
Proof.
  unfold content_type_missing, content_type_differs, check_content_type.
  intros [-> | (v & -> & Hne)]; [done|].
  by apply String.eqb_neq in Hne as ->.
Qed.

Lemma deserialize_outcome self doc :
  (exists c, deserialize self doc = Return c /\ id c = id self) \/
  (exists message, deserialize self doc = Raise (DataValidationError message)).
Proof.
  unfold deserialize.
  repeat (match goal with
          | |- context [match ?x with _ => _ end] => destruct x
          end; eauto).
Qed.

(** C6. [check_content_type] aborts with 415 exactly when the
    [Content-Type] header is missing or is not the expected media type,
    and lets the request through otherwise; so [POST /customers] and
    [PUT /customers/{id}] answer 415 exactly for the requests whose
    [Content-Type] is missing or is not [application/json]. *)
Theorem check_content_type_415_iff :
  forall (ct : string) (request : Request) (st : Store),
    (aborted_with 415 (check_content_type ct request st).1 <->
       content_type_missing request \/ content_type_differs ct request) /\
    (check_content_type ct request st = (Return tt, st) <->
       content_type_is ct request) /\
    (aborted_with 415 (create_customers request st).1 <->
       content_type_missing request \/
       content_type_differs "application/json" request) /\
    (forall customer_id,
       aborted_with 415 (update_customers customer_id request st).1 <->
       content_type_missing request \/
       content_type_differs "application/json" request).
Proof.
  intros ct request st.
  assert (Hbad : forall ct',
    content_type_missing request \/ content_type_differs ct' request ->
    aborted_with 415 (check_content_type ct' request st).1).
  { intros ct' H. rewrite (check_content_type_bad _ _ _ H). by eexists. }
  repeat split.
  - intros [d Hd].
    destruct (content_type_cases ct request) as [Hok|H]; [|done].
    by rewrite (check_content_type_ok _ _ _ Hok) in Hd.
  - apply Hbad.
  - intros Hret.
    destruct (content_type_cases ct request) as [Hok|H]; [done|].
    by rewrite (check_content_type_bad _ _ _ H) in Hret.
  - apply check_content_type_ok.
  - intros [d Hd].
    destruct (content_type_cases "application/json" request) as [Hok|H]; [|done].
    exfalso. unfold create_customers in Hd.
    rewrite (bind_Return _ _ _ _ _ (check_content_type_ok _ _ _ Hok)) in Hd.
    run_handler.
    destruct (data request) as [doc|]; [|done].
    destruct (deserialize_outcome new_customer doc) as [(c & Hc & _)|(m & Hc)];
      rewrite Hc in Hd; done.
  - intros H. unfold create_customers.
    rewrite (bind_Raise _ _ _ _ _ (check_content_type_bad _ _ _ H)). by eexists.
  - intros [d Hd].
    destruct (content_type_cases "application/json" request) as [Hok|H]; [|done].
    exfalso. unfold update_customers in Hd.
    rewrite (bind_Return _ _ _ _ _ (check_content_type_ok _ _ _ Hok)) in Hd.
    run_handler.
    destruct (find customer_id st) as [c0|]; [|done].
    destruct (data request) as [doc|]; [|done].
    destruct (deserialize_outcome c0 doc) as [(c & Hc & _)|(m & Hc)];
      rewrite Hc in Hd; done.
  - intros H. unfold update_customers.
    rewrite (bind_Raise _ _ _ _ _ (check_content_type_bad _ _ _ H)). by eexists.
Qed.

(** ** The model's queries *)

Lemma find_id k st c : find k st = Some c -> id c = Some k.
Proof.
  unfold find. destruct (table st !! k); simpl; [|done]. by intros [= <-].
Qed.

Lemma elem_of_all c st : c ∈ all st <-> stored c st.
Proof.
  unfold all, stored, find. rewrite list_elem_of_fmap. split.
  - intros ([k r] & -> & Hin). apply elem_of_map_to_list in Hin.
    exists k. simpl. by rewrite Hin.
  - intros (k & Hk). destruct (table st !! k) as [r|] eqn:Hr; [|done].
    injection Hk as <-. exists (k, r). split; [done|].
    by apply elem_of_map_to_list.
Qed.

Lemma elem_of_find_by field value c st :
  c ∈ find_by field value st <-> stored c st /\ field c = value.
Proof.
  unfold find_by. rewrite list_elem_of_In, filter_In, <- list_elem_of_In.
  by rewrite elem_of_all, String.eqb_eq.
Qed.

(** ** The query string *)

Lemma truthy_given key request value :
  given key request value -> truthy (args_get key (args request)) = Some value.
Proof. intros [-> Hne]. by destruct value. Qed.

Lemma truthy_not_given key request :
  not_given key request -> truthy (args_get key (args request)) = None.
Proof. by intros [-> | ->]. Qed.

Lemma args_get_filter key key' qs :
  args_get key' (List.filter (fun kv : string * string => negb (String.eqb kv.1 key)) qs) =
  if String.eqb key' key then None else args_get key' qs.
Proof.
  induction qs as [|[k v] qs IH]; simpl.
  - by destruct (String.eqb key' key).
  - destruct (String.eqb_spec k key) as [->|Hk]; simpl.
    + rewrite IH. destruct (String.eqb_spec key' key) as [->|Hk']; [done|].
      destruct (String.eqb_spec key key'); congruence.
    + rewrite IH. destruct (String.eqb_spec k key') as [->|Hkk].
      * by apply String.eqb_neq in Hk as ->.
      * done.
Qed.

Lemma truthy_without_arg key key' request :
  args_get key (args request) = Some ""%string ->
  truthy (args_get key' (args (without_arg key request))) =
  truthy (args_get key' (args request)).
Proof.
  intros Hempty. unfold without_arg. simpl. rewrite args_get_filter.
  destruct (String.eqb_spec key' key) as [->|_]; [|done].
  by rewrite Hempty.
Qed.

(** ** What the read handlers return *)

Lemma list_customers_returns request st :
  exists customers, list_customers request st = (Return (listing customers), st).
Proof.
  unfold list_customers, bind, query, ret.
  repeat (match goal with
          | |- context [truthy ?x] => destruct (truthy x)
          end); by eexists.
Qed.

Lemma get_customers_found customer_id request st c :
  find customer_id st = Some c ->
  get_customers customer_id request st = (Return (entity 200 [] c), st).
Proof. unfold get_customers, bind, query. by intros ->. Qed.

Lemma get_customers_missing customer_id request st :
  find customer_id st = None ->
  get_customers customer_id request st =
    (Raise (HTTPException 404 (not_found_message customer_id)), st).
Proof. unfold get_customers, bind, query. by intros ->. Qed.

Lemma get_customers_pure customer_id request st :
  (get_customers customer_id request st).2 = st.
Proof.
  destruct (find customer_id st) as [c|] eqn:Hfind.
  - by rewrite (get_customers_found _ _ _ _ Hfind).
  - by rewrite (get_customers_missing _ _ _ Hfind).
Qed.

(** C2. [GET /customers] applies at most one filter, the first that is
    given (present with a non-empty value) in the order [name], [email],
    [phone_number], [address]: a given [name] alone selects the result,
    through [find_by_name]; else a given [email]; else a given
    [phone_number]; else a given [address]; else every customer is
    returned.  The response is the serialized list with status 200, and
    the customers a [name] filter returns are exactly the stored ones
    with that name. *)
Theorem list_customers_first_filter_wins :
  forall (request : Request) (st : Store),
    (forall v, given "name" request v ->
       list_customers request st = (Return (listing (find_by_name v st)), st)) /\
    (forall v, not_given "name" request -> given "email" request v ->
       list_customers request st = (Return (listing (find_by_email v st)), st)) /\
    (forall v, not_given "name" request -> not_given "email" request ->
       given "phone_number" request v ->
       list_customers request st =
         (Return (listing (find_by_phone_number v st)), st)) /\
    (forall v, not_given "name" request -> not_given "email" request ->
       not_given "phone_number" request -> given "address" request v ->
       list_customers request st = (Return (listing (find_by_address v st)), st)) /\
    (not_given "name" request -> not_given "email" request ->
       not_given "phone_number" request -> not_given "address" request ->
       list_customers request st = (Return (listing (all st)), st)) /\
    (exists customers,
       list_customers request st = (Return (listing customers), st)) /\
    (forall v c, c ∈ find_by_name v st <-> stored c st /\ name c = v).
Proof.
  intros request st.
  split_and!; [unfold list_customers, bind, query, ret..| |].
  - intros v Hn. by rewrite (truthy_given _ _ _ Hn).
  - intros v Hn He.
    by rewrite (truthy_not_given _ _ Hn), (truthy_given _ _ _ He).
  - intros v Hn He Hp.
    by rewrite (truthy_not_given _ _ Hn), (truthy_not_given _ _ He),
      (truthy_given _ _ _ Hp).
  - intros v Hn He Hp Ha.
    by rewrite (truthy_not_given _ _ Hn), (truthy_not_given _ _ He),
      (truthy_not_given _ _ Hp), (truthy_given _ _ _ Ha).
  - intros Hn He Hp Ha.
    by rewrite (truthy_not_given _ _ Hn), (truthy_not_given _ _ He),
      (truthy_not_given _ _ Hp), (truthy_not_given _ _ Ha).
  - apply list_customers_returns.
  - intros v c. apply elem_of_find_by.
Qed.

Lemma list_customers_first_filter_wins_witness :
  given "name" (sample.plain_request [("name", "Alice"); ("email", "bob@example.com")]%string)
        "Alice" /\
  list_customers (sample.plain_request [("name", "Alice"); ("email", "bob@example.com")]%string)
                 sample.two =
    (Return (listing (find_by_name "Alice" sample.two)), sample.two).
Proof.
  assert (Hgiven : given "name"
            (sample.plain_request [("name", "Alice"); ("email", "bob@example.com")]%string)
            "Alice").
  { split; [reflexivity | discriminate]. }
  split; [exact Hgiven|].
  exact (proj1 (list_customers_first_filter_wins _ sample.two) _ Hgiven).
Defined.

(** C9. A filter that is present in the query string of [GET /customers]
    with an empty value counts as absent.  The response is the one the
    same request gets with that parameter taken out, and it is decided
    by the next filter in the order: after an empty [name], by a given
    [email], else a given [phone_number], else a given [address], else
    every customer is listed; likewise after an empty [email],
    [phone_number] or [address] when the filters before it are not
    given.  The empty value itself is never used as a filter. *)
Theorem list_customers_empty_filter_is_absent :
  forall (request : Request) (st : Store),
    (forall key, args_get key (args request) = Some ""%string ->
       list_customers request st = list_customers (without_arg key request) st /\
       args_get key (args (without_arg key request)) = None) /\
    (args_get "name" (args request) = Some ""%string ->
       (forall v, given "email" request v ->
          list_customers request st = (Return (listing (find_by_email v st)), st)) /\
       (forall v, not_given "email" request -> given "phone_number" request v ->
          list_customers request st =
            (Return (listing (find_by_phone_number v st)), st)) /\
       (forall v, not_given "email" request -> not_given "phone_number" request ->
          given "address" request v ->
          list_customers request st = (Return (listing (find_by_address v st)), st)) /\
       (not_given "email" request -> not_given "phone_number" request ->
          not_given "address" request ->
          list_customers request st = (Return (listing (all st)), st))) /\
    (args_get "email" (args request) = Some ""%string ->
     not_given "name" request ->
       (forall v, given "phone_number" request v ->
          list_customers request st =
            (Return (listing (find_by_phone_number v st)), st)) /\
       (forall v, not_given "phone_number" request -> given "address" request v ->
          list_customers request st = (Return (listing (find_by_address v st)), st)) /\
       (not_given "phone_number" request -> not_given "address" request ->
          list_customers request st = (Return (listing (all st)), st))) /\
    (args_get "phone_number" (args request) = Some ""%string ->
     not_given "name" request -> not_given "email" request ->
       (forall v, given "address" request v ->
          list_customers request st = (Return (listing (find_by_address v st)), st)) /\
       (not_given "address" request ->
          list_customers request st = (Return (listing (all st)), st))) /\
    (args_get "address" (args request) = Some ""%string ->
     not_given "name" request -> not_given "email" request ->
     not_given "phone_number" request ->
       list_customers request st = (Return (listing (all st)), st)).
Proof.
  intros request st.
  assert (Hempty : forall key, args_get key (args request) = Some ""%string ->
                     truthy (args_get key (args request)) = None)
    by (by intros key ->).
  split_and!.
  - intros key Hkey. split.
    + unfold list_customers. by rewrite !(truthy_without_arg _ _ _ Hkey).
    + unfold without_arg. simpl. rewrite args_get_filter.
      by rewrite String.eqb_refl.
  - intros Hname. unfold list_customers, bind, query, ret.
    rewrite (Hempty _ Hname). split_and!.
    + intros v He. by rewrite (truthy_given _ _ _ He).
    + intros v He Hp.
      by rewrite (truthy_not_given _ _ He), (truthy_given _ _ _ Hp).
    + intros v He Hp Ha.
      by rewrite (truthy_not_given _ _ He), (truthy_not_given _ _ Hp),
        (truthy_given _ _ _ Ha).
    + intros He Hp Ha.
      by rewrite (truthy_not_given _ _ He), (truthy_not_given _ _ Hp),
        (truthy_not_given _ _ Ha).
  - intros Hemail Hn. unfold list_customers, bind, query, ret.
    rewrite (truthy_not_given _ _ Hn), (Hempty _ Hemail). split_and!.
    + intros v Hp. by rewrite (truthy_given _ _ _ Hp).
    + intros v Hp Ha.
      by rewrite (truthy_not_given _ _ Hp), (truthy_given _ _ _ Ha).
    + intros Hp Ha.
      by rewrite (truthy_not_given _ _ Hp), (truthy_not_given _ _ Ha).
  - intros Hphone Hn He. unfold list_customers, bind, query, ret.
    rewrite (truthy_not_given _ _ Hn), (truthy_not_given _ _ He),
      (Hempty _ Hphone). split.
    + intros v Ha. by rewrite (truthy_given _ _ _ Ha).
    + intros Ha. by rewrite (truthy_not_given _ _ Ha).
  - intros Haddress Hn He Hp. unfold list_customers, bind, query, ret.
    by rewrite (truthy_not_given _ _ Hn), (truthy_not_given _ _ He),
      (truthy_not_given _ _ Hp), (Hempty _ Haddress).
Qed.

Lemma list_customers_empty_filter_is_absent_witness :
  args_get "name" (args (sample.plain_request [("name", ""); ("email", "bob@example.com")]%string))
    = Some ""%string /\
  given "email" (sample.plain_request [("name", ""); ("email", "bob@example.com")]%string)
        "bob@example.com" /\
  list_customers (sample.plain_request [("name", ""); ("email", "bob@example.com")]%string)
                 sample.two =
    (Return (listing (find_by_email "bob@example.com" sample.two)), sample.two) /\
  find_by_email "bob@example.com" sample.two =
    [ {| id := Some 2; name := "Bob"; email := "bob@example.com";
         phone_number := "555-0101"; address := "2 Main St" |} ] /\
  find_by_name "" sample.two = [] /\
  list_customers (sample.plain_request [("name", ""); ("email", "bob@example.com")]%string)
                 sample.two =
  list_customers (sample.plain_request [("email", "bob@example.com")]%string) sample.two.
Proof.
  assert (Hgiven : given "email"
            (sample.plain_request [("name", ""); ("email", "bob@example.com")]%string)
            "bob@example.com").
  { split; [reflexivity | discriminate]. }
  pose proof (list_customers_empty_filter_is_absent
                (sample.plain_request [("name", ""); ("email", "bob@example.com")]%string)
                sample.two) as (Hwithout & Hname & _).
  split_and!.
  - reflexivity.
  - exact Hgiven.
  - exact (proj1 (Hname eq_refl) _ Hgiven).
  - reflexivity.
  - reflexivity.
  - exact (proj1 (Hwithout "name"%string eq_refl)).
Defined.

(** C5. [GET /customers/{id}] answers 200 with the serialized customer
    when a customer with that id is stored, and 404 with a message that
    names the id when none is. *)
Theorem get_customers_200_or_404 :
  forall (customer_id : Z) (request : Request) (st : Store),
    (forall c, find customer_id st = Some c ->
       get_customers customer_id request st = (Return (entity 200 [] c), st)) /\
    (find customer_id st = None ->
       get_customers customer_id request st =
         (Raise (HTTPException 404
            ("Customer with id '" +:+ str customer_id +:+ "' was not found.")), st)).
Proof.
  intros k request st. split.
  - intros c. apply get_customers_found.
  - apply get_customers_missing.
Qed.

Lemma get_customers_200_or_404_witness :
  (find 2 sample.two <> None /\
   (get_customers 2 (sample.plain_request []) sample.two).1 =
     Return (entity 200 []
       {| id := Some 2; name := "Bob"; email := "bob@example.com";
          phone_number := "555-0101"; address := "2 Main St" |})) /\
  (find 7 sample.two = None /\
   (get_customers 7 (sample.plain_request []) sample.two).1 =
     Raise (HTTPException 404 "Customer with id '7' was not found.")).
Proof.
  split; split.
  - discriminate.
  - by rewrite (proj1 (get_customers_200_or_404 2 (sample.plain_request []) sample.two)
                  _ eq_refl).
  - reflexivity.
  - by rewrite (proj2 (get_customers_200_or_404 7 (sample.plain_request []) sample.two)
                  eq_refl).
Defined.

(** C8. Reads never mutate: [GET /], [GET /customers] with any query
    string and [GET /customers/{id}] leave the store as it was, and so
    does whatever view the URL map binds to a GET. *)
Theorem reads_never_mutate :
  forall (request : Request) (st : Store),
    (index request st).2 = st /\
    (list_customers request st).2 = st /\
    (forall customer_id, (get_customers customer_id request st).2 = st) /\
    (forall path view, route GET path = Some view -> (view request st).2 = st).
Proof.
  intros request st.
  assert (Hindex : (index request st).2 = st) by reflexivity.
  assert (Hlist : (list_customers request st).2 = st).
  { by destruct (list_customers_returns request st) as [cs ->]. }
  pose proof (fun k => get_customers_pure k request st) as Hget.
  split_and!; [done..|].
  intros path view. unfold route.
  destruct (String.eqb path "/"); [by intros [= <-]|].
  destruct (String.eqb path "/customers"); [by intros [= <-]|].
  destruct (strip_prefix "/customers/" path) as [segment|]; simpl; [|done].
  destruct (int_converter segment) as [k|]; simpl; [|done].
  intros [= <-]. apply Hget.
Qed.

Lemma reads_never_mutate_witness :
  route GET "/customers/2" = Some (get_customers 2) /\
  (get_customers 2 (sample.plain_request []) sample.two).2 = sample.two.
Proof.
  split; [reflexivity|].
  exact (proj2 (proj2 (proj2 (reads_never_mutate (sample.plain_request []) sample.two)))
           "/customers/2"%string (get_customers 2) eq_refl).
Defined.

(** ** The model's commands *)

Lemma customer_of_columns_of k c :
  id c = Some k -> customer_of k (columns_of c) = c.
Proof. destruct c as [i n e p a]. simpl. by intros ->. Qed.

Lemma find_update c st k :
  id c = Some k -> find k (models.update c st) = Some c.
Proof.
  intros Hid. unfold find, models.update. rewrite Hid. simpl.
  rewrite lookup_insert_eq. simpl. by rewrite customer_of_columns_of.
Qed.

Lemma find_update_ne c st k k' :
  id c = Some k -> k' <> k -> find k' (models.update c st) = find k' st.
Proof.
  intros Hid Hne. unfold find, models.update. rewrite Hid. simpl.
  by rewrite lookup_insert_ne.
Qed.

Lemma next_id_update c st : next_id (models.update c st) = next_id st.
Proof. unfold models.update. by destruct (id c). Qed.

Lemma find_delete c st k :
  id c = Some k -> find k (models.delete c st) = None.
Proof.
  intros Hid. unfold find, models.delete. rewrite Hid. simpl.
  by rewrite lookup_delete_eq.
Qed.

Lemma find_delete_ne c st k k' :
  id c = Some k -> k' <> k -> find k' (models.delete c st) = find k' st.
Proof.
  intros Hid Hne. unfold find, models.delete. rewrite Hid. simpl.
  by rewrite lookup_delete_ne.
Qed.


Lemma find_create c st :
  find (next_id st) (create c st).2 = Some (create c st).1.
Proof. unfold find, create. simpl. by rewrite lookup_insert_eq. Qed.

Lemma find_create_ne c st k :
  k <> next_id st -> find k (create c st).2 = find k st.
Proof. intros Hne. unfold find, create. simpl. by rewrite lookup_insert_ne. Qed.

Lemma find_fresh st k : consistent st -> next_id st <= k -> find k st = None.
Proof.
  intros [_ Hkeys] Hle. unfold find.
  destruct (table st !! k) as [r|] eqn:Hr; [|done].
  specialize (Hkeys k (mk_is_Some _ _ Hr)). lia.
Qed.

Lemma find_is_Some k st : is_Some (find k st) <-> is_Some (table st !! k).
Proof. unfold find. by rewrite fmap_is_Some. Qed.

Lemma consistent_empty : consistent empty_store.
Proof.
  split; [done|]. intros k [r Hr]. simpl in Hr. by rewrite lookup_empty in Hr.
Qed.

Lemma consistent_create c st : consistent st -> consistent (create c st).2.
Proof.
  intros [Hpos Hkeys]. unfold create. split; simpl; [lia|].
  intros k. rewrite lookup_insert. case_decide as Hk.
  - subst. lia.
  - intros Hsome. specialize (Hkeys k Hsome). lia.
Qed.

Lemma consistent_update c st k :
  id c = Some k -> is_Some (find k st) -> consistent st ->
  consistent (models.update c st).
Proof.
  intros Hid Hfound [Hpos Hkeys]. apply find_is_Some in Hfound.
  unfold models.update. rewrite Hid. split; simpl; [done|].
  intros k'. rewrite lookup_insert. case_decide as Hk; [subst|]; auto.
Qed.

Lemma consistent_delete c st : consistent st -> consistent (models.delete c st).
Proof.
  intros [Hpos Hkeys]. unfold models.delete.
  destruct (id c) as [k|]; [|done]. split; simpl; [done|].
  intros k'. rewrite lookup_delete. case_decide; [by intros []|]. auto.
Qed.

(** ** Which path segments [int] reads *)

Lemma digits_all_digit d : all_chars is_digit (NilEmpty.string_of_uint d) = true.
Proof. induction d; simpl; auto. Qed.

Lemma digits_nonempty d : d <> Decimal.Nil -> NilEmpty.string_of_uint d <> EmptyString.
Proof. by destruct d. Qed.

Lemma is_digit_not_space c : is_digit c = true -> is_space c = false.
Proof. destruct c as [[] [] [] [] [] [] [] []]; by compute. Qed.

Lemma is_digit_not_sign c :
  is_digit c = true -> Ascii.eqb c "-" = false /\ Ascii.eqb c "+" = false.
Proof. destruct c as [[] [] [] [] [] [] [] []]; by compute. Qed.

Lemma rstrip_digits s : all_chars is_digit s = true -> rstrip s = s.
Proof.
  induction s as [|c rest IH]; [done|]. simpl.
  intros [Hc Hrest]%andb_prop. rewrite (IH Hrest).
  destruct rest; [|done]. by rewrite (is_digit_not_space _ Hc).
Qed.

Lemma digit_groups_digits prev s :
  all_chars is_digit s = true -> s <> EmptyString \/ prev = true ->
  digit_groups prev s = Some s.
Proof.
  revert prev. induction s as [|c rest IH]; intros prev Hall Hne.
  - destruct Hne as [ | -> ]; done.
  - simpl in *. apply andb_prop in Hall as [-> Hrest].
    rewrite (IH true Hrest) by (by right). done.
Qed.

Lemma unsigned_literal_digits d :
  d <> Decimal.Nil ->
  unsigned_literal (NilEmpty.string_of_uint d) = Some (Z.of_uint d).
Proof.
  intros Hd. unfold unsigned_literal.
  rewrite digit_groups_digits;
    [|apply digits_all_digit|left; by apply digits_nonempty].
  simpl. by rewrite NilEmpty.usu.
Qed.

Lemma py_int_digits d :
  d <> Decimal.Nil ->
  py_int (NilEmpty.string_of_uint d) = Some (Z.of_uint d) /\
  py_int (String "-" (NilEmpty.string_of_uint d)) = Some (- Z.of_uint d).
Proof.
  intros Hd. pose proof (digits_all_digit d) as Hall.
  pose proof (digits_nonempty d Hd) as Hne.
  pose proof (unsigned_literal_digits d Hd) as Hlit.
  destruct (NilEmpty.string_of_uint d) as [|c rest] eqn:Hs; [done|].
  pose proof Hall as Hall'. simpl in Hall'. apply andb_prop in Hall' as [Hc Hrest].
  destruct (is_digit_not_sign _ Hc) as [Hminus Hplus].
  unfold py_int. split.
  - simpl. rewrite (is_digit_not_space _ Hc).
    change (match rstrip rest with
            | EmptyString => if is_space c then EmptyString else String c EmptyString
            | String a kept => String c (String a kept)
            end) with (rstrip (String c rest)).
    rewrite (rstrip_digits _ Hall). by rewrite Hminus, Hplus, Hlit.
  - simpl.
    change (match rstrip rest with
            | EmptyString => if is_space c then EmptyString else String c EmptyString
            | String a kept => String c (String a kept)
            end) with (rstrip (String c rest)).
    rewrite (rstrip_digits _ Hall). simpl. by rewrite Hlit.
Qed.

Lemma py_int_str k : py_int (str k) = Some k.
Proof.
  unfold str. destruct k as [|p|p]; [done| |]; simpl.
  - pose proof (DecimalPos.Unsigned.to_uint_nonnil p) as Hd.
    replace (NilZero.string_of_uint (Pos.to_uint p))
      with (NilEmpty.string_of_uint (Pos.to_uint p))
      by (by destruct (Pos.to_uint p)).
    rewrite (proj1 (py_int_digits _ Hd)).
    unfold Z.of_uint. by rewrite DecimalPos.Unsigned.of_to.
  - pose proof (DecimalPos.Unsigned.to_uint_nonnil p) as Hd.
    replace (NilZero.string_of_uint (Pos.to_uint p))
      with (NilEmpty.string_of_uint (Pos.to_uint p))
      by (by destruct (Pos.to_uint p)).
    rewrite (proj2 (py_int_digits _ Hd)).
    unfold Z.of_uint. by rewrite DecimalPos.Unsigned.of_to.
Qed.






Example py_int_examples :
  py_int "12" = Some 12 /\ py_int " -7 " = Some (-7) /\ py_int "1_000" = Some 1000 /\
  py_int "007" = Some 7 /\ py_int "+3" = Some 3 /\
  py_int "abc" = None /\ py_int "" = None /\ py_int "1__0" = None /\
  py_int "+-1" = None /\ py_int "12a" = None /\ py_int "_1" = None /\
  py_int "1_" = None /\ py_int "- 1" = None /\ py_int "1 2" = None.
Proof. repeat split; reflexivity. Qed.

(** ** DELETE *)

Lemma delete_customer_bad_id s request st :
  py_int s = None ->
  delete_customer s request st = (Raise (DataValidationError "Bad ID format"), st).
Proof. unfold delete_customer, raise. by intros ->. Qed.

Lemma delete_customer_found s request st k c :
  py_int s = Some k -> find k st = Some c ->
  delete_customer s request st =
    (Return {| resp_body := JObj []; resp_status := 204; resp_headers := [] |},
     models.delete c st).
Proof. unfold delete_customer, bind, query, command, ret. by intros -> ->. Qed.

Lemma delete_customer_missing s request st k :
  py_int s = Some k -> find k st = None ->
  delete_customer s request st =
    (Raise (HTTPException 404 (not_found_message k)), st).
Proof. unfold delete_customer, bind, query, abort, raise. by intros -> ->. Qed.



(** ** Deserialization *)

Lemma deserialize_Return self doc c :
  deserialize self doc = Return c ->
  id c = id self /\
  json_field "name" doc = Some (JStr (name c)) /\
  json_field "email" doc = Some (JStr (email c)) /\
  json_field "phone_number" doc = Some (JStr (phone_number c)) /\
  json_field "address" doc = Some (JStr (address c)).
Proof.
  unfold deserialize.
  repeat (match goal with
          | |- context [match ?x with _ => _ end] => destruct x
          end; try discriminate).
  by intros [= <-].
Qed.

Lemma deserialize_Raise self doc e :
  deserialize self doc = Raise e ->
  (exists message, e = DataValidationError message) /\
  forall other, deserialize other doc = Raise e.
Proof.
  unfold deserialize.
  repeat (match goal with
          | |- context [match ?x with _ => _ end] => destruct x
          end; try discriminate);
    intros [= <-]; split; eauto.
Qed.

(** ** Decimal text of an id *)

Lemma int_converter_str k : 0 <= k -> int_converter (str k) = Some k.
Proof.
  intros Hk. unfold int_converter, str. destruct k as [|p|p]; [done| |lia].
  simpl. rewrite NilZero.usu by apply DecimalPos.Unsigned.to_uint_nonnil.
  simpl. unfold Z.of_uint. by rewrite DecimalPos.Unsigned.of_to.
Qed.

Lemma route_GET_customer k :
  0 <= k -> route GET ("/customers/" +:+ str k) = Some (get_customers k).
Proof.
  intros Hk. unfold route. simpl.
  change ("" +:+ str k) with (str k). by rewrite (int_converter_str _ Hk).
Qed.

(** ** POST and PUT, step by step *)

Lemma create_customers_ok request st doc c :
  content_type_is "application/json" request ->
  data request = Some doc ->
  deserialize new_customer doc = Return c ->
  create_customers request st =
    (Return (entity 201
       [("Location", host_url request +:+ "/customers/" +:+ str (next_id st))]
       (create c st).1),
     (create c st).2).
Proof.
  intros Hct Hdata Hdes. unfold create_customers.
  rewrite (bind_Return _ _ _ _ _ (check_content_type_ok _ _ _ Hct)).
  unfold get_json, lift, bind, ret. by rewrite Hdata, Hdes.
Qed.

Lemma create_customers_fails request st :
  (forall doc, data request = Some doc ->
     exists e, deserialize new_customer doc = Raise e) ->
  exists e, create_customers request st = (Raise e, st).
Proof.
  intros Hfails. unfold create_customers.
  destruct (content_type_cases "application/json" request) as [Hct|Hct].
  - rewrite (bind_Return _ _ _ _ _ (check_content_type_ok _ _ _ Hct)).
    unfold get_json, lift, bind, abort, raise, ret.
    destruct (data request) as [doc|]; [|by eexists].
    destruct (Hfails doc eq_refl) as [e ->]. by eexists.
  - rewrite (bind_Raise _ _ _ _ _ (check_content_type_bad _ _ _ Hct)). by eexists.
Qed.

Lemma update_customers_missing k request st :
  content_type_is "application/json" request ->
  find k st = None ->
  update_customers k request st =
    (Raise (HTTPException 404 (not_found_message k)), st).
Proof.
  intros Hct Hfind. unfold update_customers.
  rewrite (bind_Return _ _ _ _ _ (check_content_type_ok _ _ _ Hct)).
  unfold bind, query, abort, raise. by rewrite Hfind.
Qed.

Lemma update_customers_ok k request st c doc c' :
  content_type_is "application/json" request ->
  find k st = Some c ->
  data request = Some doc ->
  deserialize c doc = Return c' ->
  update_customers k request st = (Return (entity 200 [] c'), models.update c' st).
Proof.
  intros Hct Hfind Hdata Hdes. unfold update_customers.
  rewrite (bind_Return _ _ _ _ _ (check_content_type_ok _ _ _ Hct)).
  unfold get_json, lift, bind, query, command, ret.
  by rewrite Hfind, Hdata, Hdes.
Qed.

Lemma update_customers_fails k request st :
  (forall doc, data request = Some doc ->
     exists e, deserialize new_customer doc = Raise e) ->
  exists e, update_customers k request st = (Raise e, st).
Proof.
  intros Hfails. unfold update_customers.
  destruct (content_type_cases "application/json" request) as [Hct|Hct].
  - rewrite (bind_Return _ _ _ _ _ (check_content_type_ok _ _ _ Hct)).
    unfold get_json, lift, bind, query, abort, raise, ret.
    destruct (find k st) as [c|]; [|by eexists].
    destruct (data request) as [doc|]; [|by eexists].
    destruct (Hfails doc eq_refl) as [e He].
    rewrite (proj2 (deserialize_Raise _ _ _ He) c). by eexists.
  - rewrite (bind_Raise _ _ _ _ _ (check_content_type_bad _ _ _ Hct)). by eexists.
Qed.

(** Whatever the request, PUT either raises and leaves the store alone,
    or writes one deserialized customer back to the row it was read from. *)
Lemma update_customers_cases k request st :
  (exists e, update_customers k request st = (Raise e, st)) \/
  (exists c doc c',
     find k st = Some c /\ data request = Some doc /\
     deserialize c doc = Return c' /\
     update_customers k request st = (Return (entity 200 [] c'), models.update c' st)).
Proof.
  destruct (content_type_cases "application/json" request) as [Hct|Hct].
  - destruct (find k st) as [c|] eqn:Hfind.
    + destruct (data request) as [doc|] eqn:Hdata.
      * destruct (deserialize c doc) as [c'|e] eqn:Hdes.
        -- right. exists c, doc, c'. split_and!; try done.
           by apply (update_customers_ok _ _ _ c doc).
        -- left. exists e. unfold update_customers.
           rewrite (bind_Return _ _ _ _ _ (check_content_type_ok _ _ _ Hct)).
           unfold get_json, lift, bind, query, ret. by rewrite Hfind, Hdata, Hdes.
      * left. eexists. unfold update_customers.
        rewrite (bind_Return _ _ _ _ _ (check_content_type_ok _ _ _ Hct)).
        unfold get_json, lift, bind, query, abort, raise. by rewrite Hfind, Hdata.
    + left. eexists. by apply update_customers_missing.
  - left. eexists. unfold update_customers.
    by rewrite (bind_Raise _ _ _ _ _ (check_content_type_bad _ _ _ Hct)).
Qed.

(** Whatever the request, POST either raises and leaves the store alone,
    or stores one deserialized customer under the next key. *)
Lemma create_customers_cases request st :
  (exists e, create_customers request st = (Raise e, st)) \/
  (exists doc c,
     data request = Some doc /\ deserialize new_customer doc = Return c /\
     (create_customers request st).2 = (create c st).2).
Proof.
  destruct (content_type_cases "application/json" request) as [Hct|Hct].
  - destruct (data request) as [doc|] eqn:Hdata.
    + destruct (deserialize new_customer doc) as [c|e] eqn:Hdes.
      * right. exists doc, c. split_and!; try done.
        by rewrite (create_customers_ok _ _ _ _ Hct Hdata Hdes).
      * left. apply create_customers_fails. intros doc' Hdoc'.
        rewrite Hdata in Hdoc'. injection Hdoc' as <-. by eexists.
    + left. apply create_customers_fails. intros doc' Hdoc'. congruence.
  - left. eexists. unfold create_customers.
    by rewrite (bind_Raise _ _ _ _ _ (check_content_type_bad _ _ _ Hct)).
Qed.

(** Whatever the request, DELETE either leaves the store alone or removes
    the one customer it found. *)
Lemma delete_customer_cases s request st :
  (delete_customer s request st).2 = st \/
  (exists k c, find k st = Some c /\
     (delete_customer s request st).2 = models.delete c st).
Proof.
  destruct (py_int s) as [k|] eqn:Hs.
  - destruct (find k st) as [c|] eqn:Hfind.
    + right. exists k, c. by rewrite (delete_customer_found _ _ _ _ _ Hs Hfind).
    + left. by rewrite (delete_customer_missing _ _ _ _ Hs Hfind).
  - left. by rewrite (delete_customer_bad_id _ _ _ Hs).
Qed.

Lemma serialize_id c k : id c = Some k -> json_field "id" (serialize c) = Some (JNum k).
Proof. unfold serialize. simpl. by intros ->. Qed.

(** ** The store stays consistent *)

(** X11. Every view the URL map hands out keeps the store consistent:
    if the stored ids are positive and below the next id to hand out
    before the request, they are so after it, whatever the request and
    whether it succeeds or fails. *)
Lemma handlers_keep_consistent method path view request st :
  route method path = Some view ->
  consistent st -> consistent (view request st).2.
Proof.
  intros Hroute Hst.
  assert (Hpost : consistent (create_customers request st).2).
  { destruct (create_customers_cases request st)
      as [[e ->]|(doc & c & _ & _ & ->)]; [done|by apply consistent_create]. }
  assert (Hput : forall k, consistent (update_customers k request st).2).
  { intros k. destruct (update_customers_cases k request st)
      as [[e ->]|(c & doc & c' & Hfind & _ & Hdes & ->)]; [done|].
    apply (consistent_update _ _ k); [|by rewrite Hfind|done].
    destruct (deserialize_Return _ _ _ Hdes) as [-> _]. by apply find_id in Hfind. }
  assert (Hdelete : forall s, consistent (delete_customer s request st).2).
  { intros s. destruct (delete_customer_cases s request st)
      as [->|(k & c & _ & ->)]; [done|by apply consistent_delete]. }
  assert (Hlist : (list_customers request st).2 = st).
  { by destruct (list_customers_returns request st) as [cs ->]. }
  unfold route in Hroute.
  destruct (String.eqb path "/").
  { destruct method; simplify_eq. exact Hst. }
  destruct (String.eqb path "/customers").
  { destruct method; simplify_eq; [by rewrite Hlist|done]. }
  destruct (strip_prefix "/customers/" path) as [segment|]; simpl in Hroute; [|done].
  destruct method; [| done | |].
  - destruct (int_converter segment) as [k|]; simpl in Hroute; [|done].
    injection Hroute as <-. by rewrite get_customers_pure.
  - destruct (int_converter segment) as [k|]; simpl in Hroute; [|done].
    injection Hroute as <-. apply Hput.
  - destruct (string_converter segment) as [s|]; simpl in Hroute; [|done].
    injection Hroute as <-. apply Hdelete.
Qed.

Lemma deserialize_well_formed self doc n e p a :
  well_formed doc n e p a ->
  deserialize self doc =
    Return {| id := id self; name := n; email := e; phone_number := p; address := a |}.
Proof. unfold well_formed, deserialize. by intros (-> & -> & -> & ->). Qed.

(** C1. A POST to [/customers] with [Content-Type: application/json] and
    a body that gives the four customer fields answers 201 with the
    serialized new customer and a [Location] header that is the URL of
    [GET /customers/{id}] for the id the store assigned, an id no stored
    customer had; the URL map sends a GET of that path to
    [get_customers] for that id, which then answers 200 with the same
    serialized customer. *)
Theorem create_customers_then_get :
  forall (request : Request) (st : Store) (doc : json) (n e p a : string),
    consistent st ->
    content_type_is "application/json" request ->
    data request = Some doc ->
    well_formed doc n e p a ->
    let k := next_id st in
    let created :=
      {| id := Some k; name := n; email := e; phone_number := p; address := a |} in
    let path := "/customers/" +:+ str k in
    let st' := (create_customers request st).2 in
    (create_customers request st).1 =
      Return {| resp_body := serialize created;
                resp_status := 201;
                resp_headers := [("Location", host_url request +:+ path)] |} /\
    find k st = None /\
    route GET path = Some (get_customers k) /\
    (forall request',
       get_customers k request' st' =
         (Return {| resp_body := serialize created;
                    resp_status := 200;
                    resp_headers := [] |}, st')) /\
    (forall k' c, find k' st = Some c -> find k' st' = Some c) /\
    consistent st'.
Proof.
  intros request st doc n e p a Hst Hct Hdata Hwf k created path st'.
  pose proof (deserialize_well_formed new_customer _ _ _ _ _ Hwf) as Hdes.
  pose proof (create_customers_ok _ st _ _ Hct Hdata Hdes) as Hpost.
  subst st'. rewrite Hpost. cbn [fst snd].
  assert (Hfresh : find k st = None) by (apply find_fresh; [done|subst k; lia]).
  split_and!.
  - done.
  - done.
  - apply route_GET_customer. destruct Hst. subst k. lia.
  - intros request'. apply get_customers_found. apply find_create.
  - intros k' c Hfind. rewrite find_create_ne; [done|].
    intros ->. fold k in Hfind. congruence.
  - by apply consistent_create.
Qed.

Lemma create_customers_then_get_witness :
  consistent sample.one /\
  (create_customers (sample.json_request sample.bob) sample.one).1 =
    Return {| resp_body :=
                serialize {| id := Some 2; name := "Bob"; email := "bob@example.com";
                             phone_number := "555-0101"; address := "2 Main St" |};
              resp_status := 201;
              resp_headers := [("Location", "http://localhost:8080/customers/2")] |}%string /\
  route GET "/customers/2" = Some (get_customers 2) /\
  (get_customers 2 (sample.plain_request []) sample.two).1 =
    Return {| resp_body :=
                serialize {| id := Some 2; name := "Bob"; email := "bob@example.com";
                             phone_number := "555-0101"; address := "2 Main St" |};
              resp_status := 200;
              resp_headers := [] |}.
Proof.
  assert (Hone : consistent sample.one).
  { apply (consistent_create _ empty_store), consistent_empty. }
  pose proof (create_customers_then_get (sample.json_request sample.bob) sample.one
                sample.bob "Bob" "bob@example.com" "555-0101" "2 Main St"
                Hone eq_refl eq_refl
                (conj eq_refl (conj eq_refl (conj eq_refl eq_refl))))
    as (Hpost & _ & Hroute & Hget & _).
  split_and!.
  - exact Hone.
  - exact Hpost.
  - exact Hroute.
  - exact (f_equal fst (Hget (sample.plain_request []))).
Defined.

(** C3, as stated, fails: a PUT with the JSON content type on a stored id
    whose body lacks the customer fields raises the validation error
    instead of answering 200, and replaces nothing. *)
Lemma put_malformed_body_counterexample :
  content_type_is "application/json" (sample.json_request (JObj [])) /\
  find 1 sample.one <> None /\
  update_customers 1 (sample.json_request (JObj [])) sample.one =
    (Raise (DataValidationError "Invalid Customer: bad or missing data"), sample.one) /\
  ~ put_found_always_200.
Proof.
  split_and!.
  - reflexivity.
  - discriminate.
  - reflexivity.
  - intros H.
    destruct (H 1 (sample.json_request (JObj [])) sample.one _ eq_refl eq_refl)
      as (resp & Hresp & _).
    discriminate Hresp.
Qed.

(** C3, amended. For a PUT to [/customers/{id}] with the JSON content
    type: if no customer with that id is stored the answer is 404 and
    nothing changes; if one is stored and the body gives the four
    customer fields, its name, email, phone number and address are
    replaced by those of the body, its id stays, and the answer is 200
    with the updated serialized customer; if one is stored and the body
    fails deserialization, an error is raised and nothing is replaced. *)
Theorem update_customers_404_or_replace :
  forall (customer_id : Z) (request : Request) (st : Store),
    content_type_is "application/json" request ->
    (find customer_id st = None ->
       update_customers customer_id request st =
         (Raise (HTTPException 404
            ("Customer with id '" +:+ str customer_id +:+ "' was not found.")), st)) /\
    (forall c doc n e p a,
       find customer_id st = Some c ->
       data request = Some doc ->
       well_formed doc n e p a ->
       let updated :=
         {| id := Some customer_id; name := n; email := e;
            phone_number := p; address := a |} in
       let st' := (update_customers customer_id request st).2 in
       (update_customers customer_id request st).1 =
         Return {| resp_body := serialize updated;
                   resp_status := 200;
                   resp_headers := [] |} /\
       find customer_id st' = Some updated /\
       (forall k', k' <> customer_id -> find k' st' = find k' st)) /\
    (forall c, find customer_id st = Some c -> body_fails request ->
       exists e, update_customers customer_id request st = (Raise e, st)).
Proof.
  intros k request st Hct. split_and!.
  - intros Hfind. exact (update_customers_missing _ _ _ Hct Hfind).
  - intros c doc n e p a Hfind Hdata Hwf updated st'.
    pose proof (find_id _ _ _ Hfind) as Hid.
    pose proof (deserialize_well_formed c _ _ _ _ _ Hwf) as Hdes.
    rewrite Hid in Hdes. fold updated in Hdes.
    pose proof (update_customers_ok _ _ _ _ _ _ Hct Hfind Hdata Hdes) as Hput.
    subst st'. rewrite Hput. cbn [fst snd]. split_and!.
    + done.
    + by apply find_update.
    + intros k' Hne. by apply (find_update_ne _ _ k).
  - intros c _ Hfails. by apply update_customers_fails.
Qed.

Lemma update_customers_404_or_replace_witness :
  (find 7 sample.two = None /\
   update_customers 7 (sample.json_request sample.alice) sample.two =
     (Raise (HTTPException 404 "Customer with id '7' was not found."), sample.two)) /\
  (find 2 sample.two <> None /\
   (update_customers 2 (sample.json_request sample.alice) sample.two).1 =
     Return {| resp_body :=
                 serialize {| id := Some 2; name := "Alice";
                              email := "alice@example.com";
                              phone_number := "555-0100"; address := "1 Main St" |};
               resp_status := 200;
               resp_headers := [] |}) /\
  (body_fails (sample.json_request (JObj [])) /\
   exists e, update_customers 1 (sample.json_request (JObj [])) sample.two =
               (Raise e, sample.two)).
Proof.
  pose proof (update_customers_404_or_replace 7 (sample.json_request sample.alice)
                sample.two eq_refl) as (Hmissing & _ & _).
  pose proof (update_customers_404_or_replace 2 (sample.json_request sample.alice)
                sample.two eq_refl) as (_ & Hfound & _).
  pose proof (update_customers_404_or_replace 1 (sample.json_request (JObj []))
                sample.two eq_refl) as (_ & _ & Hfails).
  assert (Hbody : body_fails (sample.json_request (JObj []))).
  { intros doc [= <-]. by eexists. }
  split_and!.
  - reflexivity.
  - exact (Hmissing eq_refl).
  - discriminate.
  - exact (proj1 (Hfound _ sample.alice "Alice" "alice@example.com" "555-0100"
             "1 Main St" eq_refl eq_refl
             (conj eq_refl (conj eq_refl (conj eq_refl eq_refl)))))%string.
  - exact Hbody.
  - exact (Hfails _ eq_refl Hbody).
Defined.

(** C7. The id of a customer does not change.  [deserialize] keeps the
    id of the customer it fills in, whatever the body says, so
    [PUT /customers/{id}] writes back to the row it read: the entity it
    returns carries the id of the path, the same ids are stored after as
    before, and no other customer is touched.  POST leaves every stored
    customer as it was, and DELETE every customer it does not remove. *)
Theorem id_immutable :
  forall (request : Request) (st : Store),
    (forall c doc c', deserialize c doc = Return c' -> id c' = id c) /\
    (forall customer_id,
       let st' := (update_customers customer_id request st).2 in
       (forall resp, (update_customers customer_id request st).1 = Return resp ->
          json_field "id" (resp_body resp) = Some (JNum customer_id)) /\
       (forall k, is_Some (find k st') <-> is_Some (find k st)) /\
       (forall k c', find k st' = Some c' -> id c' = Some k) /\
       (forall k, k <> customer_id -> find k st' = find k st) /\
       next_id st' = next_id st) /\
    (consistent st ->
       forall k c, find k st = Some c ->
         find k (create_customers request st).2 = Some c) /\
    (forall s k c, find k (delete_customer s request st).2 = Some c ->
       find k st = Some c).
Proof.
  intros request st. split_and!.
  - intros c doc c' Hdes. by destruct (deserialize_Return _ _ _ Hdes).
  - intros k st'. subst st'.
    destruct (update_customers_cases k request st)
      as [[e Hput]|(c & doc & c' & Hfind & Hdata & Hdes & Hput)];
      rewrite Hput; cbn [fst snd].
    + split_and!; try done. intros k' c'. apply find_id.
    + assert (Hid : id c' = Some k).
      { destruct (deserialize_Return _ _ _ Hdes) as [-> _]. by apply find_id in Hfind. }
      split_and!.
      * intros resp [= <-]. by apply serialize_id.
      * intros k'. destruct (decide (k' = k)) as [->|Hne].
        -- rewrite (find_update _ _ _ Hid), Hfind. split; by eexists.
        -- by rewrite (find_update_ne _ _ _ _ Hid Hne).
      * intros k' c0. apply find_id.
      * intros k' Hne. by apply (find_update_ne _ _ k).
      * apply next_id_update.
  - intros Hst k c Hfind.
    destruct (create_customers_cases request st)
      as [[e Hpost]|(doc & c0 & _ & _ & Hpost)]; rewrite Hpost; [done|].
    rewrite find_create_ne; [done|]. intros ->.
    rewrite find_fresh in Hfind; [done..|lia].
  - intros s k c.
    destruct (delete_customer_cases s request st)
      as [Hdel|(kd & cd & Hfind & Hdel)]; rewrite Hdel; [done|].
    pose proof (find_id _ _ _ Hfind) as Hid.
    destruct (decide (k = kd)) as [->|Hne].
    + by rewrite (find_delete _ _ _ Hid).
    + by rewrite (find_delete_ne _ _ _ _ Hid Hne).
Qed.

Lemma id_immutable_witness :
  deserialize {| id := Some 1; name := "Alice"; email := "alice@example.com";
                 phone_number := "555-0100"; address := "1 Main St" |}
              (JObj [("id", JNum 99); ("name", JStr "Al"); ("email", JStr "al@example.com");
                     ("phone_number", JStr "555-0199"); ("address", JStr "9 Elm St")])
    = Return {| id := Some 1; name := "Al"; email := "al@example.com";
                phone_number := "555-0199"; address := "9 Elm St" |} /\
  (update_customers 1
     (sample.json_request
        (JObj [("id", JNum 99); ("name", JStr "Al"); ("email", JStr "al@example.com");
               ("phone_number", JStr "555-0199"); ("address", JStr "9 Elm St")]))
     sample.two).1
    = Return (entity 200 []
        {| id := Some 1; name := "Al"; email := "al@example.com";
           phone_number := "555-0199"; address := "9 Elm St" |}) /\
  json_field "id"
    (serialize {| id := Some 1; name := "Al"; email := "al@example.com";
                  phone_number := "555-0199"; address := "9 Elm St" |})
    = Some (JNum 1) /\
  consistent sample.one /\
  find 1 (create_customers (sample.json_request sample.bob) sample.one).2 =
    Some {| id := Some 1; name := "Alice"; email := "alice@example.com";
            phone_number := "555-0100"; address := "1 Main St" |}.
Proof.
  assert (Hone : consistent sample.one).
  { apply (consistent_create _ empty_store), consistent_empty. }
  pose proof (id_immutable
    (sample.json_request
        (JObj [("id", JNum 99); ("name", JStr "Al"); ("email", JStr "al@example.com");
               ("phone_number", JStr "555-0199"); ("address", JStr "9 Elm St")]))
    sample.two) as (_ & Hput & _ & _).
  pose proof (id_immutable (sample.json_request sample.bob) sample.one)
    as (_ & _ & Hpost & _).
  split_and!.
  - reflexivity.
  - reflexivity.
  - exact (proj1 (Hput 1) _ eq_refl).
  - exact Hone.
  - exact (Hpost Hone 1 _ eq_refl).
Defined.

(** ** Validation comes first *)

Lemma create_validation_raises request st e st1 :
  create_validation request st = (Raise e, st1) ->
  st1 = st /\ create_customers request st = (Raise e, st).
Proof.
  unfold create_validation, create_customers.
  destruct (content_type_cases "application/json" request) as [Hct|Hct].
  - rewrite !(bind_Return _ _ _ _ _ (check_content_type_ok _ _ _ Hct)).
    unfold get_json, lift, bind, abort, raise, ret.
    destruct (data request) as [doc|]; [|by intros [= <- <-]].
    destruct (deserialize new_customer doc); [done|by intros [= <- <-]].
  - rewrite !(bind_Raise _ _ _ _ _ (check_content_type_bad _ _ _ Hct)).
    by intros [= <- <-].
Qed.

Lemma create_validation_fails request st :
  body_fails request -> exists e, create_validation request st = (Raise e, st).
Proof.
  intros Hfails. unfold create_validation.
  destruct (content_type_cases "application/json" request) as [Hct|Hct].
  - rewrite (bind_Return _ _ _ _ _ (check_content_type_ok _ _ _ Hct)).
    unfold get_json, lift, bind, abort, raise, ret.
    destruct (data request) as [doc|] eqn:Hdata; [|by eexists].
    destruct (Hfails doc Hdata) as [e ->]. by eexists.
  - rewrite (bind_Raise _ _ _ _ _ (check_content_type_bad _ _ _ Hct)). by eexists.
Qed.

Lemma update_validation_raises k request st e st1 :
  update_validation k request st = (Raise e, st1) ->
  st1 = st /\ update_customers k request st = (Raise e, st).
Proof.
  unfold update_validation, update_customers.
  destruct (content_type_cases "application/json" request) as [Hct|Hct].
  - rewrite !(bind_Return _ _ _ _ _ (check_content_type_ok _ _ _ Hct)).
    unfold get_json, lift, bind, query, abort, raise, ret.
    destruct (find k st) as [c|]; [|by intros [= <- <-]].
    destruct (data request) as [doc|]; [|by intros [= <- <-]].
    destruct (deserialize c doc); [done|by intros [= <- <-]].
  - rewrite !(bind_Raise _ _ _ _ _ (check_content_type_bad _ _ _ Hct)).
    by intros [= <- <-].
Qed.

Lemma update_validation_fails k request st :
  body_fails request -> exists e, update_validation k request st = (Raise e, st).
Proof.
  intros Hfails. unfold update_validation.
  destruct (content_type_cases "application/json" request) as [Hct|Hct].
  - rewrite (bind_Return _ _ _ _ _ (check_content_type_ok _ _ _ Hct)).
    unfold get_json, lift, bind, query, abort, raise, ret.
    destruct (find k st) as [c|]; [|by eexists].
    destruct (data request) as [doc|] eqn:Hdata; [|by eexists].
    destruct (Hfails doc Hdata) as [e He].
    rewrite (proj2 (deserialize_Raise _ _ _ He) c). by eexists.
  - rewrite (bind_Raise _ _ _ _ _ (check_content_type_bad _ _ _ Hct)). by eexists.
Qed.

(** C10. POST and PUT are atomic on validation failure.  When the body
    of the request fails deserialization, the steps that come before
    [create] (or [update]) already raise, the handler ends with that
    error, and the store, and with it every persisted field of the
    customer a PUT aims at, is as it was.  With the JSON content type and
    a JSON body that error is the validation error of [deserialize]. *)
Theorem validation_failure_is_atomic :
  forall (request : Request) (st : Store),
    body_fails request ->
    (exists e, create_validation request st = (Raise e, st) /\
               create_customers request st = (Raise e, st)) /\
    (forall customer_id,
       exists e, update_validation customer_id request st = (Raise e, st) /\
                 update_customers customer_id request st = (Raise e, st)) /\
    (forall customer_id,
       find customer_id (update_customers customer_id request st).2 =
       find customer_id st) /\
    (forall doc, content_type_is "application/json" request ->
       data request = Some doc ->
       exists message,
         create_customers request st = (Raise (DataValidationError message), st) /\
         forall customer_id c, find customer_id st = Some c ->
           update_customers customer_id request st =
             (Raise (DataValidationError message), st)).
Proof.
  intros request st Hfails.
  assert (Hput : forall k, exists e,
            update_validation k request st = (Raise e, st) /\
            update_customers k request st = (Raise e, st)).
  { intros k. destruct (update_validation_fails k request st Hfails) as [e He].
    exists e. split; [done|]. by apply (update_validation_raises _ _ _ _ _ He). }
  split_and!.
  - destruct (create_validation_fails request st Hfails) as [e He].
    exists e. split; [done|]. by apply (create_validation_raises _ _ _ _ He).
  - exact Hput.
  - intros k. by destruct (Hput k) as (e & _ & ->).
  - intros doc Hct Hdata.
    destruct (Hfails doc Hdata) as [e He].
    destruct (deserialize_Raise _ _ _ He) as [[message ->] Hother].
    exists message. split.
    + unfold create_customers.
      rewrite (bind_Return _ _ _ _ _ (check_content_type_ok _ _ _ Hct)).
      unfold get_json, lift, bind, ret. by rewrite Hdata, He.
    + intros k c Hfind. unfold update_customers.
      rewrite (bind_Return _ _ _ _ _ (check_content_type_ok _ _ _ Hct)).
      unfold get_json, lift, bind, query, ret. by rewrite Hfind, Hdata, (Hother c).
Qed.

Lemma validation_failure_is_atomic_witness :
  body_fails (sample.json_request (JObj [("name", JStr "Carol")])) /\
  create_customers (sample.json_request (JObj [("name", JStr "Carol")])) sample.two =
    (Raise (DataValidationError "Invalid Customer: bad or missing data"), sample.two) /\
  update_customers 1 (sample.json_request (JObj [("name", JStr "Carol")])) sample.two =
    (Raise (DataValidationError "Invalid Customer: bad or missing data"), sample.two).
Proof.
  assert (Hbody : body_fails (sample.json_request (JObj [("name", JStr "Carol")]))).
  { intros doc [= <-]. by eexists. }
  destruct (validation_failure_is_atomic _ sample.two Hbody)
    as ((e1 & Hv1 & Hpost) & Hput & _).
  destruct (Hput 1) as (e2 & Hv2 & Hput1).
  split_and!.
  - exact Hbody.
  - rewrite Hpost. by injection Hv1 as <-.
  - rewrite Hput1. by injection Hv2 as <-.
Defined.


(* ===================================================================== *)
(** * Further properties of the handlers *)
(* ===================================================================== *)

(** ** Outcomes of each handler *)

Lemma create_customers_outcome request st :
  (exists doc c,
     content_type_is "application/json" request /\
     data request = Some doc /\ deserialize new_customer doc = Return c /\
     create_customers request st =
       (Return (entity 201
          [("Location", host_url request +:+ "/customers/" +:+ str (next_id st))]
          (create c st).1),
        (create c st).2)) \/
  (exists e, create_customers request st = (Raise e, st) /\
     ((exists d, e = HTTPException 415 d) \/ (exists d, e = HTTPException 400 d) \/
      (exists m, e = DataValidationError m))).
Proof.
  destruct (content_type_cases "application/json" request) as [Hct|Hct].
  - destruct (data request) as [doc|] eqn:Hdata.
    + destruct (deserialize_outcome new_customer doc) as [(c & Hdes & Hid)|[m Hdes]].
      * left. exists doc, c. split_and!; try done.
        by apply (create_customers_ok _ _ doc).
      * right. eexists. split; [|right; right; by eexists].
        unfold create_customers.
        rewrite (bind_Return _ _ _ _ _ (check_content_type_ok _ _ _ Hct)).
        unfold get_json, lift, bind, ret. by rewrite Hdata, Hdes.
    + right. eexists. split; [|right; left; by eexists].
      unfold create_customers.
      rewrite (bind_Return _ _ _ _ _ (check_content_type_ok _ _ _ Hct)).
      unfold get_json, lift, bind, abort, raise. by rewrite Hdata.
  - right. eexists. split; [|left; by eexists]. unfold create_customers.
    by rewrite (bind_Raise _ _ _ _ _ (check_content_type_bad _ _ _ Hct)).
Qed.

Lemma update_customers_outcome k request st :
  (exists c doc c',
     content_type_is "application/json" request /\
     find k st = Some c /\ data request = Some doc /\
     deserialize c doc = Return c' /\ id c' = Some k /\
     update_customers k request st =
       (Return (entity 200 [] c'), models.update c' st)) \/
  (exists e, update_customers k request st = (Raise e, st) /\
     ((exists d, e = HTTPException 415 d) \/ (exists d, e = HTTPException 404 d) \/
      (exists d, e = HTTPException 400 d) \/ (exists m, e = DataValidationError m))).
Proof.
  destruct (content_type_cases "application/json" request) as [Hct|Hct].
  - destruct (find k st) as [c|] eqn:Hfind.
    + destruct (data request) as [doc|] eqn:Hdata.
      * destruct (deserialize_outcome c doc) as [(c' & Hdes & Hid)|[m Hdes]].
        -- left. exists c, doc, c'. split_and!; try done.
           ++ rewrite Hid. by apply find_id in Hfind.
           ++ by apply (update_customers_ok _ _ _ c doc).
        -- right. eexists. split; [|do 3 right; by eexists].
           unfold update_customers.
           rewrite (bind_Return _ _ _ _ _ (check_content_type_ok _ _ _ Hct)).
           unfold get_json, lift, bind, query, ret. by rewrite Hfind, Hdata, Hdes.
      * right. eexists. split; [|do 2 right; left; by eexists].
        unfold update_customers.
        rewrite (bind_Return _ _ _ _ _ (check_content_type_ok _ _ _ Hct)).
        unfold get_json, lift, bind, query, abort, raise. by rewrite Hfind, Hdata.
    + right. eexists. split; [by apply update_customers_missing|].
      right; left. by eexists.
  - right. eexists. split; [|left; by eexists]. unfold update_customers.
    by rewrite (bind_Raise _ _ _ _ _ (check_content_type_bad _ _ _ Hct)).
Qed.

Lemma delete_customer_outcome s request st :
  (exists k c, py_int s = Some k /\ find k st = Some c /\
     delete_customer s request st =
       (Return {| resp_body := JObj []; resp_status := 204; resp_headers := [] |},
        models.delete c st)) \/
  (exists e, delete_customer s request st = (Raise e, st) /\
     ((exists d, e = HTTPException 404 d) \/ e = DataValidationError "Bad ID format")).
Proof.
  destruct (py_int s) as [k|] eqn:Hs.
  - destruct (find k st) as [c|] eqn:Hfind.
    + left. exists k, c. split_and!; try done.
      by apply (delete_customer_found _ _ _ k).
    + right. eexists. split; [by apply (delete_customer_missing _ _ _ k)|].
      left. by eexists.
  - right. eexists. split; [by apply delete_customer_bad_id|by right].
Qed.

Lemma get_customers_outcome k request st :
  (exists c, find k st = Some c /\
     get_customers k request st = (Return (entity 200 [] c), st)) \/
  (find k st = None /\
   get_customers k request st =
     (Raise (HTTPException 404 (not_found_message k)), st)).
Proof.
  destruct (find k st) as [c|] eqn:Hfind.
  - left. exists c. split; [done|by apply get_customers_found].
  - right. split; [done|by apply get_customers_missing].
Qed.

Lemma index_returns request st :
  exists resp, index request st = (Return resp, st) /\ resp_status resp = 200.
Proof. eexists. split; reflexivity. Qed.

(** The views the URL map can hand out. *)
Lemma route_views method path view :
  route method path = Some view ->
  (method = GET /\ view = index) \/
  (method = GET /\ view = list_customers) \/
  (method = POST /\ view = create_customers) \/
  (method = GET /\ exists k, 0 <= k /\ view = get_customers k) \/
  (method = PUT /\ exists k, 0 <= k /\ view = update_customers k) \/
  (method = DELETE /\ exists s, view = delete_customer s).
Proof.
  assert (Hnonneg : forall segment k, int_converter segment = Some k -> 0 <= k).
  { unfold int_converter. intros segment k.
    destruct (NilZero.uint_of_string segment) as [d|]; simpl; [|done].
    intros [= <-]. unfold Z.of_uint. lia. }
  unfold route.
  destruct (String.eqb path "/").
  { destruct method; intros; simplify_eq. by left. }
  destruct (String.eqb path "/customers").
  { destruct method; intros; simplify_eq; [right; by left|do 2 right; by left]. }
  destruct (strip_prefix "/customers/" path) as [segment|]; simpl; [|done].
  destruct method; [| done | |].
  - destruct (int_converter segment) as [k|] eqn:Hk; simpl; [|done].
    intros [= <-]. do 3 right. left. split; [done|]. exists k. eauto.
  - destruct (int_converter segment) as [k|] eqn:Hk; simpl; [|done].
    intros [= <-]. do 4 right. left. split; [done|]. exists k. eauto.
  - destruct (string_converter segment) as [s|]; simpl; [|done].
    intros [= <-]. do 5 right. split; [done|]. by exists s.
Qed.

(** X3. The complete list of what each handler can answer.  POST answers
    201 or fails with 415, 400 or the validation error, and never with
    404; PUT answers 200 or fails with 415, 404, 400 or the validation
    error; GET of one customer answers 200 or 404; the listing and the
    index always answer 200; DELETE answers 204 or fails with 404 or the
    validation error [Bad ID format], and never with 415. *)
Theorem handler_outcomes :
  forall (request : Request) (st : Store),
    (let o := (create_customers request st).1 in
     returned_with 201 o \/ aborted_with 415 o \/ aborted_with 400 o \/
     raised_validation o) /\
    (forall customer_id,
       let o := (update_customers customer_id request st).1 in
       returned_with 200 o \/ aborted_with 415 o \/ aborted_with 404 o \/
       aborted_with 400 o \/ raised_validation o) /\
    (forall customer_id,
       let o := (get_customers customer_id request st).1 in
       returned_with 200 o \/ aborted_with 404 o) /\
    returned_with 200 (list_customers request st).1 /\
    returned_with 200 (index request st).1 /\
    (forall s,
       let o := (delete_customer s request st).1 in
       returned_with 204 o \/ aborted_with 404 o \/
       o = Raise (DataValidationError "Bad ID format")).
Proof.
  intros request st. unfold returned_with, aborted_with, raised_validation.
  split_and!.
  - destruct (create_customers_outcome request st)
      as [(doc & c & _ & _ & _ & ->)|(e & -> & [[d ->]|[[d ->]|[m ->]]])]; simpl.
    + left. by eexists.
    + right; left. by eexists.
    + do 2 right; left. by eexists.
    + do 3 right. by eexists.
  - intros k.
    destruct (update_customers_outcome k request st)
      as [(c & doc & c' & _ & _ & _ & _ & _ & ->)
         |(e & -> & [[d ->]|[[d ->]|[[d ->]|[m ->]]]])]; simpl.
    + left. by eexists.
    + right; left. by eexists.
    + do 2 right; left. by eexists.
    + do 3 right; left. by eexists.
    + do 4 right. by eexists.
  - intros k.
    destruct (get_customers_outcome k request st) as [(c & _ & ->)|[_ ->]]; simpl.
    + left. by eexists.
    + right. by eexists.
  - destruct (list_customers_returns request st) as [cs ->]. by eexists.
  - destruct (index_returns request st) as (resp & -> & Hstatus). by eexists.
  - intros s.
    destruct (delete_customer_outcome s request st)
      as [(k & c & _ & _ & ->)|(e & -> & [[d ->]| ->])]; simpl.
    + left. by eexists.
    + right; left. by eexists.
    + by do 2 right.
Qed.

(** X2. No partial effect on error: whichever view the URL map picks,
    when it raises (415, 404, 400 or a validation error) the store is
    exactly as it was before the request. *)
Theorem errors_leave_store_unchanged :
  forall (method : Method) (path : string) (view : Request -> M Response)
         (request : Request) (st : Store) (e : Exc),
    route method path = Some view ->
    (view request st).1 = Raise e ->
    (view request st).2 = st.
Proof.
  intros method path view request st e Hroute.
  destruct (route_views _ _ _ Hroute)
    as [[_ ->]|[[_ ->]|[[_ ->]|[(_ & k & _ & ->)|[(_ & k & _ & ->)|(_ & s & ->)]]]]].
  - done.
  - by destruct (list_customers_returns request st) as [cs ->].
  - by destruct (create_customers_outcome request st)
      as [(doc & c & _ & _ & _ & ->)|(e' & -> & _)].
  - intros _. apply get_customers_pure.
  - by destruct (update_customers_outcome k request st)
      as [(c & doc & c' & _ & _ & _ & _ & _ & ->)|(e' & -> & _)].
  - by destruct (delete_customer_outcome s request st)
      as [(k & c & _ & _ & ->)|(e' & -> & _)].
Qed.

Lemma errors_leave_store_unchanged_witness :
  route PUT "/customers/7" = Some (update_customers 7) /\
  (update_customers 7 (sample.json_request sample.alice) sample.two).1 =
    Raise (HTTPException 404 "Customer with id '7' was not found.") /\
  (update_customers 7 (sample.json_request sample.alice) sample.two).2 = sample.two.
Proof.
  split_and!; [reflexivity..|].
  exact (errors_leave_store_unchanged PUT "/customers/7" (update_customers 7)
           (sample.json_request sample.alice) sample.two _ eq_refl eq_refl).
Defined.

(** ** How requests compose *)

Lemma update_update c st :
  models.update c (models.update c st) = models.update c st.
Proof.
  unfold models.update. destruct (id c) as [k|]; [|done].
  simpl. by rewrite insert_insert_eq.
Qed.

Lemma deserialize_again c doc c' :
  deserialize c doc = Return c' -> deserialize c' doc = Return c'.
Proof.
  intros Hdes.
  destruct (deserialize_Return _ _ _ Hdes) as (Hid & Hn & He & Hp & Ha).
  rewrite (deserialize_well_formed c' doc _ _ _ _ (conj Hn (conj He (conj Hp Ha)))).
  by destruct c'.
Qed.

(** X4. PUT is idempotent: sending the same PUT again, to the store the
    first one left, gives the same outcome and leaves that store as it
    is. *)
Theorem update_customers_idempotent :
  forall (customer_id : Z) (request : Request) (st : Store),
    update_customers customer_id request (update_customers customer_id request st).2 =
    ((update_customers customer_id request st).1,
     (update_customers customer_id request st).2).
Proof.
  intros k request st.
  destruct (update_customers_outcome k request st)
    as [(c & doc & c' & Hct & Hfind & Hdata & Hdes & Hid & Hput)|(e & Hput & _)];
    rewrite Hput; cbn [fst snd]; [|done].
  rewrite (update_customers_ok k request _ c' doc c' Hct
             (find_update _ _ _ Hid) Hdata (deserialize_again _ _ _ Hdes)).
  by rewrite update_update.
Qed.

(** X7. Read your writes: when a PUT answers, a GET of the same id right
    after it answers with the very same response, whatever else that
    GET request carries. *)
Theorem update_customers_then_get :
  forall (customer_id : Z) (request request' : Request) (st : Store) (resp : Response),
    (update_customers customer_id request st).1 = Return resp ->
    get_customers customer_id request' (update_customers customer_id request st).2 =
      (Return resp, (update_customers customer_id request st).2).
Proof.
  intros k request request' st resp.
  destruct (update_customers_outcome k request st)
    as [(c & doc & c' & _ & _ & _ & _ & Hid & ->)|(e & -> & _)];
    cbn [fst snd]; [|done].
  intros [= <-]. apply get_customers_found. by apply find_update.
Qed.

Lemma update_customers_then_get_witness :
  (update_customers 1 (sample.json_request sample.bob) sample.two).1 =
    Return (entity 200 []
      {| id := Some 1; name := "Bob"; email := "bob@example.com";
         phone_number := "555-0101"; address := "2 Main St" |}) /\
  (get_customers 1 (sample.plain_request [])
     (update_customers 1 (sample.json_request sample.bob) sample.two).2).1 =
    Return (entity 200 []
      {| id := Some 1; name := "Bob"; email := "bob@example.com";
         phone_number := "555-0101"; address := "2 Main St" |}).
Proof.
  split; [reflexivity|].
  exact (f_equal fst
    (update_customers_then_get 1 (sample.json_request sample.bob)
       (sample.plain_request []) sample.two _ eq_refl)).
Defined.

Lemma find_by_stored field value c st : c ∈ find_by field value st -> stored c st.
Proof. rewrite elem_of_find_by. by intros [? _]. Qed.

(** Every listing shows stored customers only. *)
Lemma list_customers_stored request st :
  exists customers,
    list_customers request st = (Return (listing customers), st) /\
    forall c, c ∈ customers -> stored c st.
Proof.
  unfold list_customers, bind, query, ret.
  repeat (match goal with
          | |- context [truthy ?x] => destruct (truthy x)
          end);
    eexists; (split; [reflexivity|]); intros c;
    first [apply find_by_stored | by rewrite elem_of_all].
Qed.

Lemma items_listing customers j :
  j ∈ items (listing customers) <-> exists c, j = serialize c /\ c ∈ customers.
Proof. unfold items, listing. simpl. by rewrite list_elem_of_fmap. Qed.

(** X8. Once a DELETE has answered 204 the customer is gone for every
    other route: a GET of its id answers 404, a PUT to it (with the JSON
    content type) answers 404 whatever the body, and no listing, filtered
    or not, has an element with that id. *)
Theorem delete_customer_then_gone :
  forall (s : string) (k : Z) (request : Request) (st : Store),
    py_int s = Some k ->
    returned_with 204 (delete_customer s request st).1 ->
    let st' := (delete_customer s request st).2 in
    (forall request',
       get_customers k request' st' =
         (Raise (HTTPException 404 (not_found_message k)), st')) /\
    (forall request',
       content_type_is "application/json" request' ->
       update_customers k request' st' =
         (Raise (HTTPException 404 (not_found_message k)), st')) /\
    (forall request' resp j,
       (list_customers request' st').1 = Return resp ->
       j ∈ items resp -> json_field "id" j <> Some (JNum k)).
Proof.
  intros s k request st Hs Hok st'. subst st'.
  destruct (delete_customer_outcome s request st)
    as [(k' & c & Hs' & Hfind & Hdel)|(e & Hdel & _)];
    rewrite Hdel in *; cbn [fst snd] in *;
    [|by destruct Hok as (resp & ? & _)].
  assert (k' = k) as -> by congruence.
  pose proof (find_delete _ st _ (find_id _ _ _ Hfind)) as Hgone.
  split_and!.
  - intros request'. by apply get_customers_missing.
  - intros request' Hct. by apply update_customers_missing.
  - intros request' resp j.
    destruct (list_customers_stored request' (models.delete c st))
      as (customers & -> & Hstored).
    intros [= <-] (c0 & -> & Hin)%items_listing.
    destruct (Hstored c0 Hin) as [k0 Hk0].
    rewrite (serialize_id _ _ (find_id _ _ _ Hk0)). intros [= ->]. congruence.
Qed.

Lemma delete_customer_then_gone_witness :
  py_int "1" = Some 1 /\
  returned_with 204 (delete_customer "1" (sample.plain_request []) sample.two).1 /\
  get_customers 1 (sample.plain_request [])
    (delete_customer "1" (sample.plain_request []) sample.two).2 =
    (Raise (HTTPException 404 "Customer with id '1' was not found."),
     (delete_customer "1" (sample.plain_request []) sample.two).2).
Proof.
  assert (Hok : returned_with 204
            (delete_customer "1" (sample.plain_request []) sample.two).1).
  { eexists. split; reflexivity. }
  split_and!; [reflexivity|exact Hok|].
  exact (proj1 (delete_customer_then_gone "1" 1 (sample.plain_request []) sample.two
                  eq_refl Hok) (sample.plain_request [])).
Defined.

(** ** The item routes *)

Lemma int_converter_digits segment k :
  int_converter segment = Some k ->
  exists d, d <> Decimal.Nil /\ segment = NilEmpty.string_of_uint d /\ k = Z.of_uint d.
Proof.
  unfold int_converter.
  destruct (NilZero.uint_of_string segment) as [d|] eqn:Hd; simpl; [|done].
  intros [= <-]. exists d.
  assert (Hnil : d <> Decimal.Nil).
  { intros ->. by apply (NilZero.uint_of_string_nonnil segment). }
  split_and!; [done| |done].
  apply NilZero.sus in Hd. rewrite <- Hd. by destruct d.
Qed.

Lemma is_digit_not_slash c : is_digit c = true -> negb (Ascii.eqb c "/") = true.
Proof. destruct c as [[] [] [] [] [] [] [] []]; by compute. Qed.

Lemma digits_no_slash s :
  all_chars is_digit s = true ->
  all_chars (fun c => negb (Ascii.eqb c "/")) s = true.
Proof.
  induction s as [|c rest IH]; [done|]. simpl.
  intros [Hc Hrest]%andb_prop. by rewrite (is_digit_not_slash _ Hc), (IH Hrest).
Qed.

Lemma string_converter_digits d :
  d <> Decimal.Nil ->
  string_converter (NilEmpty.string_of_uint d) = Some (NilEmpty.string_of_uint d).
Proof.
  intros Hd. unfold string_converter.
  pose proof (digits_nonempty d Hd) as Hne.
  pose proof (digits_no_slash _ (digits_all_digit d)) as Hall.
  destruct (NilEmpty.string_of_uint d); [done|]. by rewrite Hall.
Qed.

Lemma route_item method segment :
  route method (item_path segment) =
  match method with
  | GET => get_customers <$> int_converter segment
  | PUT => update_customers <$> int_converter segment
  | DELETE => delete_customer <$> string_converter segment
  | POST => None
  end.
Proof. by destruct method. Qed.

(** X5. The three item routes agree on the id.  Whenever the segment
    after [/customers/] is one the [int] converter of GET and PUT
    accepts, DELETE accepts it too and its [int()] reads the same id:
    all three address the same customer, and POST is not routed
    there. *)
Theorem item_routes_agree :
  forall (segment : string) (k : Z),
    int_converter segment = Some k ->
    route GET (item_path segment) = Some (get_customers k) /\
    route PUT (item_path segment) = Some (update_customers k) /\
    route DELETE (item_path segment) = Some (delete_customer segment) /\
    route POST (item_path segment) = None /\
    py_int segment = Some k /\
    0 <= k.
Proof.
  intros segment k Hk. rewrite !route_item, Hk.
  destruct (int_converter_digits _ _ Hk) as (d & Hd & -> & ->).
  rewrite (string_converter_digits _ Hd), (proj1 (py_int_digits _ Hd)).
  split_and!; try done. unfold Z.of_uint. lia.
Qed.

Lemma item_routes_agree_witness :
  int_converter "007" = Some 7 /\
  route GET "/customers/007" = Some (get_customers 7) /\
  route DELETE "/customers/007" = Some (delete_customer "007") /\
  py_int "007" = Some 7.
Proof.
  pose proof (item_routes_agree "007" 7 eq_refl) as (Hget & _ & Hdelete & _ & Hint & _).
  split_and!; [reflexivity|exact Hget|exact Hdelete|exact Hint].
Defined.

Lemma find_out_of_range st k : consistent st -> k <= 0 -> find k st = None.
Proof.
  intros [_ Hkeys] Hle. unfold find.
  destruct (table st !! k) as [r|] eqn:Hr; [|done].
  specialize (Hkeys k (mk_is_Some _ _ Hr)). lia.
Qed.

(** X6. Negative ids reach DELETE only.  The path of a negative id is
    not routed for GET or PUT, whose converter takes digits only, but it
    is routed for DELETE, whose [int()] reads the sign; as no customer
    has such an id the answer there is 404, not a validation error, and
    the store is untouched.  The id is one whose spelling is a plain
    segment, within the limit [int()] puts on the number of digits. *)
Theorem negative_id_only_reaches_delete :
  forall (k : Z) (request : Request) (st : Store),
    k < 0 ->
    plain_segment (str k) ->
    consistent st ->
    route GET (item_path (str k)) = None /\
    route PUT (item_path (str k)) = None /\
    route DELETE (item_path (str k)) = Some (delete_customer (str k)) /\
    delete_customer (str k) request st =
      (Raise (HTTPException 404 (not_found_message k)), st).
Proof.
  intros k request st Hneg _ Hst. rewrite !route_item.
  destruct k as [|p|p]; [lia..|].
  assert (Hint : int_converter (str (Z.neg p)) = None).
  { unfold int_converter, str. simpl.
    by destruct (NilEmpty.uint_of_string (NilZero.string_of_uint (Pos.to_uint p))). }
  assert (Hseg : string_converter (str (Z.neg p)) = Some (str (Z.neg p))).
  { pose proof (DecimalPos.Unsigned.to_uint_nonnil p) as Hd.
    pose proof (string_converter_digits _ Hd) as Hdigits.
    unfold string_converter, str in *. simpl.
    replace (NilZero.string_of_uint (Pos.to_uint p))
      with (NilEmpty.string_of_uint (Pos.to_uint p))
      by (by destruct (Pos.to_uint p)).
    destruct (NilEmpty.string_of_uint (Pos.to_uint p)) as [|c rest]; [done|].
    simpl in *. by destruct (negb (c =? "/")%char && _). }
  rewrite Hint, Hseg. split_and!; try done.
  apply delete_customer_missing; [apply py_int_str|].
  apply find_out_of_range; [done|lia].
Qed.

Lemma negative_id_only_reaches_delete_witness :
  plain_segment (str (-3)) /\
  route GET "/customers/-3" = None /\
  route DELETE "/customers/-3" = Some (delete_customer "-3") /\
  delete_customer "-3" (sample.plain_request []) sample.two =
    (Raise (HTTPException 404 "Customer with id '-3' was not found."), sample.two).
Proof.
  assert (Htwo : consistent sample.two).
  { apply (consistent_create _ sample.one), (consistent_create _ empty_store),
      consistent_empty. }
  assert (Hplain : plain_segment (str (-3)))
    by (split; [reflexivity|vm_compute; lia]).
  pose proof (negative_id_only_reaches_delete (-3) (sample.plain_request [])
                sample.two eq_refl Hplain Htwo) as (Hget & _ & Hdelete & H404).
  split_and!; [exact Hplain|exact Hget|exact Hdelete|exact H404].
Defined.

(** ** Listing and fetching *)

(** X9. The listing and the item route agree.  Every element of a
    listing, filtered or not, carries an id, and a GET of that id answers
    200 with exactly that element; and when no filter is given, whatever
    a GET of an id answers with is an element of the listing. *)
Theorem listing_agrees_with_get :
  forall (request : Request) (st : Store) (resp : Response),
    (list_customers request st).1 = Return resp ->
    (forall j, j ∈ items resp ->
       exists k, json_field "id" j = Some (JNum k) /\
         forall request',
           get_customers k request' st =
             (Return {| resp_body := j; resp_status := 200; resp_headers := [] |},
              st)) /\
    (not_given "name" request -> not_given "email" request ->
     not_given "phone_number" request -> not_given "address" request ->
     forall k request' resp',
       (get_customers k request' st).1 = Return resp' ->
       resp_body resp' ∈ items resp).
Proof.
  intros request st resp Hlist. split.
  - destruct (list_customers_stored request st) as (customers & Heq & Hstored).
    rewrite Heq in Hlist. injection Hlist as <-.
    intros j (c & -> & Hin)%items_listing.
    destruct (Hstored c Hin) as [k Hk]. exists k.
    split; [by apply serialize_id, (find_id _ st)|].
    intros request'. by apply get_customers_found.
  - intros Hn He Hp Ha k request' resp'.
    unfold list_customers, bind, query, ret in Hlist.
    rewrite (truthy_not_given _ _ Hn), (truthy_not_given _ _ He),
      (truthy_not_given _ _ Hp), (truthy_not_given _ _ Ha) in Hlist.
    injection Hlist as <-.
    destruct (get_customers_outcome k request' st) as [(c & Hfind & ->)|[_ ->]];
      [|done].
    intros [= <-]. apply (items_listing (all st)). exists c.
    split; [done|]. apply elem_of_all. by exists k.
Qed.

Lemma listing_agrees_with_get_witness :
  (list_customers (sample.plain_request [("name", "Bob")]%string) sample.two).1 =
    Return (listing [ {| id := Some 2; name := "Bob"; email := "bob@example.com";
                         phone_number := "555-0101"; address := "2 Main St" |} ]) /\
  exists k,
    json_field "id"
      (serialize {| id := Some 2; name := "Bob"; email := "bob@example.com";
                    phone_number := "555-0101"; address := "2 Main St" |})
      = Some (JNum k) /\
    forall request',
      get_customers k request' sample.two =
        (Return {| resp_body :=
                     serialize {| id := Some 2; name := "Bob";
                                  email := "bob@example.com";
                                  phone_number := "555-0101";
                                  address := "2 Main St" |};
                   resp_status := 200; resp_headers := [] |},
         sample.two).
Proof.
  split; [reflexivity|].
  apply (proj1 (listing_agrees_with_get
                  (sample.plain_request [("name", "Bob")]%string) sample.two _
                  eq_refl)).
  apply items_listing. eexists. split; [reflexivity|]. by left.
Defined.

(** X10. POST does not look for duplicates: posting the same customer
    twice answers 201 both times, each time with the new customer and a
    [Location] for its id; the two ids differ, and both customers are
    stored afterwards with the same data. *)
Theorem create_customers_twice :
  forall (request : Request) (st : Store) (doc : json) (n e p a : string),
    content_type_is "application/json" request ->
    data request = Some doc ->
    well_formed doc n e p a ->
    let customer i :=
      {| id := Some i; name := n; email := e; phone_number := p; address := a |} in
    let st1 := (create_customers request st).2 in
    let st2 := (create_customers request st1).2 in
    exists k1 k2,
      k1 <> k2 /\
      (create_customers request st).1 =
        Return (entity 201
          [("Location", host_url request +:+ "/customers/" +:+ str k1)]
          (customer k1)) /\
      (create_customers request st1).1 =
        Return (entity 201
          [("Location", host_url request +:+ "/customers/" +:+ str k2)]
          (customer k2)) /\
      find k1 st2 = Some (customer k1) /\
      find k2 st2 = Some (customer k2).
Proof.
  intros request st doc n e p a Hct Hdata Hwf customer st1 st2.
  pose proof (deserialize_well_formed new_customer _ _ _ _ _ Hwf) as Hdes.
  subst st2 st1.
  rewrite !(create_customers_ok _ _ _ _ Hct Hdata Hdes). cbn [fst snd].
  exists (next_id st), (next_id (create
    {| id := id new_customer; name := n; email := e;
       phone_number := p; address := a |} st).2).
  split_and!.
  - unfold create. simpl. lia.
  - done.
  - done.
  - unfold find, create. simpl.
    rewrite lookup_insert_ne by lia. by rewrite lookup_insert_eq.
  - unfold find, create. simpl. by rewrite lookup_insert_eq.
Qed.

Lemma create_customers_twice_witness :
  exists k1 k2,
    k1 <> k2 /\
    (create_customers (sample.json_request sample.bob) sample.one).1 =
      Return (entity 201
        [("Location", "http://localhost:8080/customers/" +:+ str k1)]%string
        {| id := Some k1; name := "Bob"; email := "bob@example.com";
           phone_number := "555-0101"; address := "2 Main St" |}) /\
    (create_customers (sample.json_request sample.bob) sample.two).1 =
      Return (entity 201
        [("Location", "http://localhost:8080/customers/" +:+ str k2)]%string
        {| id := Some k2; name := "Bob"; email := "bob@example.com";
           phone_number := "555-0101"; address := "2 Main St" |}).
Proof.
  destruct (create_customers_twice (sample.json_request sample.bob) sample.one
              sample.bob "Bob" "bob@example.com" "555-0101" "2 Main St"
              eq_refl eq_refl
              (conj eq_refl (conj eq_refl (conj eq_refl eq_refl))))
    as (k1 & k2 & Hne & Hfirst & Hsecond & _).
  exists k1, k2. split_and!; [exact Hne|exact Hfirst|exact Hsecond].
Defined.

(** ** The index *)

(** X1. The index always answers 200, whatever the request and the
    store, and what it lists is served: every method and URL it lists is
    the host of the request followed by a path that the URL map binds
    for that method.  It lists four operations (list, get, create,
    update), nothing under any other label, and none with the method
    DELETE. *)
Theorem index_lists_routed_urls :
  forall (request : Request) (st : Store),
    exists resp,
      index request st = (Return resp, st) /\
      resp_status resp = 200 /\
      (forall label method url,
         advertised resp label method url ->
         exists m path view,
           method_of_string method = Some m /\ m <> DELETE /\
           url = host_url request +:+ path /\
           route m path = Some view) /\
      advertised resp "list_customers" "GET" (host_url request +:+ "/customers") /\
      advertised resp "get_customer" "GET" (host_url request +:+ "/customers/1") /\
      advertised resp "create_customer" "POST" (host_url request +:+ "/customers") /\
      advertised resp "update_customer" "PUT" (host_url request +:+ "/customers/1") /\
      (forall label method url,
         advertised resp label method url ->
         label = "list_customers"%string \/ label = "get_customer"%string \/
         label = "create_customer"%string \/ label = "update_customer"%string).
Proof.
  intros request st. eexists. split; [reflexivity|]. split; [reflexivity|].
  split_and!.
  - intros label method url (paths & entry & Hpaths & Hentry & Hmethod & Hurl).
    simpl in Hpaths. simplify_eq. cbn [json_field dict_get] in Hentry.
    repeat (match type of Hentry with
            | context [String.eqb ?x label] => destruct (String.eqb x label)
            end);
      simplify_eq/=.
    + exists GET, "/customers"%string, list_customers.
      split_and!; [reflexivity|discriminate|reflexivity|reflexivity].
    + exists GET, "/customers/1"%string, (get_customers 1).
      split_and!; [reflexivity|discriminate|reflexivity|reflexivity].
    + exists POST, "/customers"%string, create_customers.
      split_and!; [reflexivity|discriminate|reflexivity|reflexivity].
    + exists PUT, "/customers/1"%string, (update_customers 1).
      split_and!; [reflexivity|discriminate|reflexivity|reflexivity].
  - by do 2 eexists.
  - by do 2 eexists.
  - by do 2 eexists.
  - by do 2 eexists.
  - intros label method url (paths & entry & Hpaths & Hentry & _ & _).
    simpl in Hpaths. simplify_eq. cbn [json_field dict_get] in Hentry.
    repeat (match type of Hentry with
            | context [String.eqb ?x label] =>
                destruct (String.eqb_spec x label)
            end);
      simplify_eq; auto.
Qed.

Lemma handlers_keep_consistent_witness :
  route POST "/customers" = Some create_customers /\
  consistent sample.one /\
  consistent (create_customers (sample.json_request sample.bob) sample.one).2.
Proof.
  assert (Hone : consistent sample.one).
  { apply (consistent_create _ empty_store), consistent_empty. }
  split_and!; [reflexivity|exact Hone|].
  exact (handlers_keep_consistent POST "/customers" create_customers
           (sample.json_request sample.bob) sample.one eq_refl Hone).
Defined.
